(** * hfi1 link-state and user-interrupt handling (drivers/infiniband/hw/hfi1/intr.c)

    A shallow embedding of [intr.c]: the device, port and receive-context
    records hold the fields the file reads and writes, every function of the
    file is a computation in a state monad over those records, and every call
    that leaves the file (register access, configuration, logging, wake-ups,
    upstream event dispatch) is appended to a call log together with the
    arguments it was given. *)

From Stdlib Require Import ZArith Lia Bool List.
From stdpp Require Import base list.
Import ListNotations.

Local Open Scope Z_scope.

(** ** Constants of the headers

    [hfi.h], [common.h], [chip.h], [chip_registers.h] and [ib_verbs.h] are not
    part of the sources at hand, so the constants and macros that [intr.c]
    takes from them are the fields of one structure: every statement below
    holds whatever their values are, under the hypotheses it names. *)
Class hfi_h := {
  NEIGHBOR_TYPE_HFI : Z;
  REMOTE_LNI_INFO : Z;
  GENERAL_CONFIG : Z;
  MGMT_ALLOWED_SHIFT : Z;
  MGMT_ALLOWED_MASK : Z;
  FULL_MGMT_P_KEY : Z;
  HFI1_IB_CFG_PKEYS : Z;
  HFI1_INITTED : Z;
  ICODE_FUNCTIONAL_SIMULATOR : Z;
  DC_DC8051_STS_REMOTE_GUID : Z;
  DC_DC8051_STS_REMOTE_NODE_TYPE : Z;
  DC_DC8051_STS_REMOTE_NODE_TYPE_VAL_MASK : Z;
  DC_DC8051_STS_REMOTE_PORT_NO : Z;
  DC_DC8051_STS_REMOTE_PORT_NO_VAL_SMASK : Z;
  DC_DC8051_STS_REMOTE_FM_SECURITY : Z;
  DC_DC8051_STS_LOCAL_FM_SECURITY_DISABLED_MASK : Z;
  OPA_LINKDOWN_REASON_NONE : Z;
  HFI1_ODR_MASK : Z -> Z;
  FREEZE_SELF : Z;
  FREEZE_LINK_DOWN : Z;
  _HFI1_EVENT_LINKDOWN_BIT : Z;
  IB_EVENT_PORT_ERR : Z;
  HFI1_MAX_SHARED_CTXTS : Z;
  HFI1_CTXT_WAITING_RCV : Z;
  HFI1_CTXT_WAITING_URG : Z;
  HFI1_RCVCTRL_INTRAVAIL_DIS : Z
}.

(** [#define LINK_UP_DELAY 500], in microseconds. *)
Definition LINK_UP_DELAY : Z := 500.

(** ** Data *)

(** [struct hfi1_pportdata]: the fields [intr.c] touches.  The structure is
    declared in [hfi.h]; its integer fields are integers here and hold what
    the code stores in them, which is 0, 1 or a masked register field.
    [pkeys] is the partition-key array, a list indexed from 0. *)
Record hfi1_pportdata := mk_pportdata {
  port : Z;
  linkup : Z;
  neighbor_guid : Z;
  neighbor_type : Z;
  neighbor_port_number : Z;
  neighbor_fm_security : Z;
  pkeys : list Z;
  mgmt_allowed : Z;
  offline_disabled_reason : Z;
  actual_vls_operational : Z;
  neighbor_normal : Z
}.

(** [struct hfi1_devdata].  [pport] is [dd->pport[0]], the only port
    [handle_linkup_change] works on; [ibdev] stands for the address
    [&dd->verbs_dev.rdi.ibdev], the identity of the device towards the IB
    core; [events] is the word of event bits user space polls. *)
Record hfi1_devdata := mk_devdata {
  flags : Z;
  icode : Z;
  vau : Z;
  vcu : Z;
  vl15_init : Z;
  ibdev : Z;
  events : Z;
  pport : hfi1_pportdata
}.

(** [struct ib_event], as far as [signal_ib_event] fills it in. *)
Record ib_event := mk_ib_event {
  device : Z;
  port_num : Z;
  event : Z
}.

(** Calls that leave [intr.c] on the link path, in program order.  A call that
    is handed [dd] or [ppd] carries the device as it was at that moment. *)
Inductive call :=
| call_set_up_vau (v : Z)
| call_set_up_vl15 (v : Z)
| call_assign_remote_cm_au_table (v : Z)
| call_dd_dev_info (guid type pn : Z)
| call_dd_dev_warn (old new : Z)
| call_udelay (usecs : Z)
| call_hfi1_set_ib_cfg (seen : hfi1_devdata) (which val : Z)
| call_hfi1_event_pkey_change (seen : hfi1_devdata) (pn : Z)
| call_get_linkup_link_widths (seen : hfi1_devdata)
| call_reset_link_credits (seen : hfi1_devdata)
| call_start_freeze_handling (seen : hfi1_devdata) (reasons : Z)
| call_hfi1_set_uevent_bits (seen : hfi1_devdata) (evtbit : Z)
| call_ib_dispatch_event (e : ib_event).

(** What the link path runs in: the device, the module parameter
    [quick_linkup], the values the hardware returns for register and 8051
    configuration reads, and the log of calls made so far. *)
Record world := mk_world {
  w_dd : hfi1_devdata;
  quick_linkup : Z;
  csr : Z -> Z;
  lni_config : Z -> Z -> Z;
  w_calls : list call
}.

(** Field updates. *)
Definition with_neighbor_guid (v : Z) (p : hfi1_pportdata) : hfi1_pportdata :=
  mk_pportdata (port p) (linkup p) v (neighbor_type p)
    (neighbor_port_number p) (neighbor_fm_security p) (pkeys p)
    (mgmt_allowed p) (offline_disabled_reason p) (actual_vls_operational p)
    (neighbor_normal p).

Definition with_neighbor_type (v : Z) (p : hfi1_pportdata) : hfi1_pportdata :=
  mk_pportdata (port p) (linkup p) (neighbor_guid p) v
    (neighbor_port_number p) (neighbor_fm_security p) (pkeys p)
    (mgmt_allowed p) (offline_disabled_reason p) (actual_vls_operational p)
    (neighbor_normal p).

Definition with_neighbor_port_number (v : Z) (p : hfi1_pportdata) : hfi1_pportdata :=
  mk_pportdata (port p) (linkup p) (neighbor_guid p) (neighbor_type p)
    v (neighbor_fm_security p) (pkeys p)
    (mgmt_allowed p) (offline_disabled_reason p) (actual_vls_operational p)
    (neighbor_normal p).

Definition with_neighbor_fm_security (v : Z) (p : hfi1_pportdata) : hfi1_pportdata :=
  mk_pportdata (port p) (linkup p) (neighbor_guid p) (neighbor_type p)
    (neighbor_port_number p) v (pkeys p)
    (mgmt_allowed p) (offline_disabled_reason p) (actual_vls_operational p)
    (neighbor_normal p).

Definition with_pkeys (v : list Z) (p : hfi1_pportdata) : hfi1_pportdata :=
  mk_pportdata (port p) (linkup p) (neighbor_guid p) (neighbor_type p)
    (neighbor_port_number p) (neighbor_fm_security p) v
    (mgmt_allowed p) (offline_disabled_reason p) (actual_vls_operational p)
    (neighbor_normal p).

Definition with_mgmt_allowed (v : Z) (p : hfi1_pportdata) : hfi1_pportdata :=
  mk_pportdata (port p) (linkup p) (neighbor_guid p) (neighbor_type p)
    (neighbor_port_number p) (neighbor_fm_security p) (pkeys p)
    v (offline_disabled_reason p) (actual_vls_operational p)
    (neighbor_normal p).

Definition with_linkup (v : Z) (p : hfi1_pportdata) : hfi1_pportdata :=
  mk_pportdata (port p) v (neighbor_guid p) (neighbor_type p)
    (neighbor_port_number p) (neighbor_fm_security p) (pkeys p)
    (mgmt_allowed p) (offline_disabled_reason p) (actual_vls_operational p)
    (neighbor_normal p).

Definition with_offline_disabled_reason (v : Z) (p : hfi1_pportdata) : hfi1_pportdata :=
  mk_pportdata (port p) (linkup p) (neighbor_guid p) (neighbor_type p)
    (neighbor_port_number p) (neighbor_fm_security p) (pkeys p)
    (mgmt_allowed p) v (actual_vls_operational p)
    (neighbor_normal p).

Definition with_actual_vls_operational (v : Z) (p : hfi1_pportdata) : hfi1_pportdata :=
  mk_pportdata (port p) (linkup p) (neighbor_guid p) (neighbor_type p)
    (neighbor_port_number p) (neighbor_fm_security p) (pkeys p)
    (mgmt_allowed p) (offline_disabled_reason p) v
    (neighbor_normal p).

Definition with_neighbor_normal (v : Z) (p : hfi1_pportdata) : hfi1_pportdata :=
  mk_pportdata (port p) (linkup p) (neighbor_guid p) (neighbor_type p)
    (neighbor_port_number p) (neighbor_fm_security p) (pkeys p)
    (mgmt_allowed p) (offline_disabled_reason p) (actual_vls_operational p)
    v.

Definition with_pport (f : hfi1_pportdata -> hfi1_pportdata) (d : hfi1_devdata) : hfi1_devdata :=
  mk_devdata (flags d) (icode d) (vau d) (vcu d) (vl15_init d) (ibdev d)
    (events d) (f (pport d)).

Definition with_events (v : Z) (d : hfi1_devdata) : hfi1_devdata :=
  mk_devdata (flags d) (icode d) (vau d) (vcu d) (vl15_init d) (ibdev d)
    v (pport d).

Definition with_dd (f : hfi1_devdata -> hfi1_devdata) (w : world) : world :=
  mk_world (f (w_dd w)) (quick_linkup w) (csr w) (lni_config w) (w_calls w).

Definition with_call (c : call) (w : world) : world :=
  mk_world (w_dd w) (quick_linkup w) (csr w) (lni_config w) (w_calls w ++ [c]).

(** ** The state monad the code runs in *)

Definition M (S A : Type) : Type := S -> A * S.

#[global] Instance M_ret {S} : MRet (M S) := fun A (a : A) (s : S) => (a, s).

#[global] Instance M_bind {S} : MBind (M S) :=
  fun A B (f : A -> M S B) (m : M S A) (s : S) => let '(a, s1) := m s in f a s1.

Definition exec {S A} (m : M S A) (s : S) : S := snd (m s).

Definition get_dd : M world hfi1_devdata := fun w => (w_dd w, w).
Definition get_ppd : M world hfi1_pportdata := fun w => (pport (w_dd w), w).
Definition set_ppd (f : hfi1_pportdata -> hfi1_pportdata) : M world unit :=
  fun w => (tt, with_dd (with_pport f) w).
Definition log (c : call) : M world unit := fun w => (tt, with_call c w).
Definition log_dd (c : hfi1_devdata -> call) : M world unit :=
  fun w => (tt, with_call (c (w_dd w)) w).

(** ** Collaborators outside [intr.c] *)

(** Modelled from the spec: [read_csr] (chip.c) is the Register/Config Read
    collaborator, "synchronous, always succeeds": it returns what the
    hardware holds for the register and changes nothing. *)
Definition read_csr (reg : Z) : M world Z := fun w => (csr w reg, w).

(** Modelled from the spec: [read_8051_config] (chip.c) reads a field of the
    link partner's configuration exchanged during negotiation into [frame];
    it always succeeds and changes nothing. *)
Definition read_8051_config (field_id lane_id : Z) : M world Z :=
  fun w => (lni_config w field_id lane_id, w).

(** Modelled from the spec: [set_up_vau], [set_up_vl15] and
    [assign_remote_cm_au_table] (chip.c) program the credit-unit and
    virtual-lane-15 values and the remote credit-mapping table; they are
    recorded with the value they are given. *)
Definition set_up_vau (v : Z) : M world unit := log (call_set_up_vau v).
Definition set_up_vl15 (v : Z) : M world unit := log (call_set_up_vl15 v).
Definition assign_remote_cm_au_table (v : Z) : M world unit :=
  log (call_assign_remote_cm_au_table v).

(** Modelled from the spec: [dd_dev_info] and [dd_dev_warn] (hfi.h) write a
    log line; the line is recorded by its arguments. *)
Definition dd_dev_info (guid type pn : Z) : M world unit :=
  log (call_dd_dev_info guid type pn).
Definition dd_dev_warn (old new : Z) : M world unit :=
  log (call_dd_dev_warn old new).

(** Modelled from the spec: [udelay] (linux/delay.h) is the "fixed,
    uninterruptible pause"; it is recorded with its length. *)
Definition udelay (usecs : Z) : M world unit := log (call_udelay usecs).

(** Modelled from the spec: [hfi1_set_ib_cfg] (chip.c) with
    [HFI1_IB_CFG_PKEYS] is "push the updated key table to hardware"; the call
    is recorded with the device it was handed, its result is dropped by the
    caller. *)
Definition hfi1_set_ib_cfg (which val : Z) : M world unit :=
  log_dd (fun d => call_hfi1_set_ib_cfg d which val).

(** Modelled from the spec: [hfi1_event_pkey_change] (mad.c) is "notify any
    registered listener that the partition-key table changed"; the
    notification is recorded with the device and the port number it names. *)
Definition hfi1_event_pkey_change (pn : Z) : M world unit :=
  log_dd (fun d => call_hfi1_event_pkey_change d pn).

(** Modelled from the spec: [ib_dispatch_event] (IB core) is the upstream
    event consumer, which "receives structured events"; the event record is
    recorded as it is handed over. *)
Definition ib_dispatch_event (e : ib_event) : M world unit :=
  log (call_ib_dispatch_event e).

(** Modelled from the spec: [get_linkup_link_widths] (chip.c) is "query and
    record the set of virtual-lane widths now available". *)
Definition get_linkup_link_widths : M world unit :=
  log_dd call_get_linkup_link_widths.

(** Modelled from the spec: [reset_link_credits] (chip.c) is "reset any
    outstanding link credit accounting". *)
Definition reset_link_credits : M world unit :=
  log_dd call_reset_link_credits.

(** Modelled from the spec: [start_freeze_handling] (chip.c) is the
    Freeze/Recovery trigger, which "accepts a bitmask of reason flags". *)
Definition start_freeze_handling (reasons : Z) : M world unit :=
  log_dd (fun d => call_start_freeze_handling d reasons).

(** Modelled from the spec: [hfi1_set_uevent_bits] (file_ops.c) marks "a
    settable bit observable by user-space polling": bit [evtbit] of the
    device's event word is set. *)
Definition hfi1_set_uevent_bits (evtbit : Z) : M world unit :=
  fun w =>
    let w1 := with_call (call_hfi1_set_uevent_bits (w_dd w) evtbit) w in
    (tt, with_dd (fun d => with_events (Z.setbit (events d) evtbit) d) w1).

(** ** The link path of [intr.c] *)

Section Link.
Context {K : hfi_h}.

(** [static void set_mgmt_allowed(struct hfi1_pportdata *ppd)] *)
Definition set_mgmt_allowed : M world unit :=
  ppd ← get_ppd;
  if neighbor_type ppd =? NEIGHBOR_TYPE_HFI then
    set_ppd (with_mgmt_allowed 1)
  else
    frame ← read_8051_config REMOTE_LNI_INFO GENERAL_CONFIG;
    set_ppd (with_mgmt_allowed
               (Z.land (Z.shiftr frame MGMT_ALLOWED_SHIFT) MGMT_ALLOWED_MASK)).

(** [ppd->pkeys[2]]; the array has [MAX_PKEY_VALUES] slots in the driver, a
    table too short to have slot 2 reads as 0 here. *)
Definition pkey2 (ppd : hfi1_pportdata) : Z := default 0 (pkeys ppd !! 2%nat).

(** [static void add_full_mgmt_pkey(struct hfi1_pportdata *ppd)] *)
Definition add_full_mgmt_pkey : M world unit :=
  ppd ← get_ppd;
  (if negb ((pkey2 ppd =? 0) || (pkey2 ppd =? FULL_MGMT_P_KEY)) then
     dd_dev_warn (pkey2 ppd) FULL_MGMT_P_KEY
   else mret tt);;
  set_ppd (fun p => with_pkeys (<[2%nat := FULL_MGMT_P_KEY]> (pkeys p)) p);;
  hfi1_set_ib_cfg HFI1_IB_CFG_PKEYS 0;;
  ppd ← get_ppd;
  hfi1_event_pkey_change (port ppd).

(** [static void signal_ib_event(struct hfi1_pportdata *ppd,
    enum ib_event_type ev)] *)
Definition signal_ib_event (ev : Z) : M world unit :=
  dd ← get_dd;
  if Z.land (flags dd) HFI1_INITTED =? 0 then
    mret tt
  else
    ib_dispatch_event
      {| device := ibdev dd; port_num := port (pport dd); event := ev |}.

(** [!!linkup] *)
Definition to_bool (x : Z) : Z := if x =? 0 then 0 else 1.

(** [void handle_linkup_change(struct hfi1_devdata *dd, u32 linkup)]; the
    argument is [up] here, [linkup] being the field of the port. *)
Definition handle_linkup_change (up : Z) : M world unit :=
  ppd ← get_ppd;
  if Z.lxor (linkup ppd) (to_bool up) =? 0 then
    mret tt
  else if negb (up =? 0) then
    dd ← get_dd;
    ql ← (fun w => (quick_linkup w, w));
    (if negb (ql =? 0) || (icode dd =? ICODE_FUNCTIONAL_SIMULATOR) then
       set_up_vau (vau dd);;
       set_up_vl15 (vl15_init dd);;
       assign_remote_cm_au_table (vcu dd)
     else mret tt);;
    guid ← read_csr DC_DC8051_STS_REMOTE_GUID;
    set_ppd (with_neighbor_guid guid);;
    type ← read_csr DC_DC8051_STS_REMOTE_NODE_TYPE;
    set_ppd (with_neighbor_type
               (Z.land type DC_DC8051_STS_REMOTE_NODE_TYPE_VAL_MASK));;
    pn ← read_csr DC_DC8051_STS_REMOTE_PORT_NO;
    set_ppd (with_neighbor_port_number
               (Z.land pn DC_DC8051_STS_REMOTE_PORT_NO_VAL_SMASK));;
    sec ← read_csr DC_DC8051_STS_REMOTE_FM_SECURITY;
    set_ppd (with_neighbor_fm_security
               (Z.land sec DC_DC8051_STS_LOCAL_FM_SECURITY_DISABLED_MASK));;
    ppd ← get_ppd;
    dd_dev_info (neighbor_guid ppd) (neighbor_type ppd)
                (neighbor_port_number ppd);;
    udelay LINK_UP_DELAY;;
    set_mgmt_allowed;;
    ppd ← get_ppd;
    (if negb (mgmt_allowed ppd =? 0) then add_full_mgmt_pkey else mret tt);;
    set_ppd (with_linkup 1);;
    set_ppd (with_offline_disabled_reason
               (HFI1_ODR_MASK OPA_LINKDOWN_REASON_NONE));;
    get_linkup_link_widths
  else
    set_ppd (with_linkup 0);;
    set_ppd (with_actual_vls_operational 0);;
    reset_link_credits;;
    start_freeze_handling (Z.lor FREEZE_SELF FREEZE_LINK_DOWN);;
    let ev := IB_EVENT_PORT_ERR in
    hfi1_set_uevent_bits _HFI1_EVENT_LINKDOWN_BIT;;
    set_ppd (with_neighbor_normal 0);;
    signal_ib_event ev.

End Link.

(** ** The user-context interrupt path of [intr.c] *)

(** [struct hfi1_ctxtdata]: the in-use bitmap (one word, bit [i] for
    sub-context [i]), the event-flag word, the urgent counter (a [u32] in
    [hfi.h]) and the consumers blocked on the wait queue [wait]. *)
Record hfi1_ctxtdata := mk_ctxtdata {
  in_use_ctxts : Z;
  event_flags : Z;
  urgent : Z;
  wait : list Z
}.

(** Calls that leave [intr.c] on the interrupt path, in program order. *)
Inductive ucall :=
| call_spin_lock_irqsave
| call_spin_unlock_irqrestore
| call_wake_up_interruptible (woken : list Z)
| call_hfi1_rcvctrl (op : Z) (seen : hfi1_ctxtdata).

(** What the interrupt path runs in: the context, the hardware's
    receive-available interrupt enable of that context, and the log of calls
    made so far. *)
Record uworld := mk_uworld {
  u_rcd : hfi1_ctxtdata;
  rcvavail_intr_enabled : bool;
  u_calls : list ucall
}.

Definition with_event_flags (v : Z) (r : hfi1_ctxtdata) : hfi1_ctxtdata :=
  mk_ctxtdata (in_use_ctxts r) v (urgent r) (wait r).

Definition with_urgent (v : Z) (r : hfi1_ctxtdata) : hfi1_ctxtdata :=
  mk_ctxtdata (in_use_ctxts r) (event_flags r) v (wait r).

Definition with_wait (v : list Z) (r : hfi1_ctxtdata) : hfi1_ctxtdata :=
  mk_ctxtdata (in_use_ctxts r) (event_flags r) (urgent r) v.

Definition with_rcd (f : hfi1_ctxtdata -> hfi1_ctxtdata) (u : uworld) : uworld :=
  mk_uworld (f (u_rcd u)) (rcvavail_intr_enabled u) (u_calls u).

Definition with_ucall (c : ucall) (u : uworld) : uworld :=
  mk_uworld (u_rcd u) (rcvavail_intr_enabled u) (u_calls u ++ [c]).

Definition get_rcd : M uworld hfi1_ctxtdata := fun u => (u_rcd u, u).
Definition set_rcd (f : hfi1_ctxtdata -> hfi1_ctxtdata) : M uworld unit :=
  fun u => (tt, with_rcd f u).
Definition ulog (c : ucall) : M uworld unit := fun u => (tt, with_ucall c u).

(** Arithmetic of a [u32]. *)
Definition u32 (x : Z) : Z := x mod 2 ^ 32.

(** Modelled from the spec: [spin_lock_irqsave] and [spin_unlock_irqrestore]
    (linux/spinlock.h) take and release the shared-context lock; they are
    recorded in the log. *)
Definition spin_lock_irqsave : M uworld unit := ulog call_spin_lock_irqsave.
Definition spin_unlock_irqrestore : M uworld unit :=
  ulog call_spin_unlock_irqrestore.

(** Modelled from the spec: [bitmap_empty] (linux/bitmap.h) tells whether
    "the in-use sub-context bitmap is entirely empty", that is whether none of
    its first [nbits] bits is set. *)
Definition bitmap_empty (bm nbits : Z) : bool :=
  Z.land bm (Z.ones nbits) =? 0.

(** Modelled from the spec: [test_and_clear_bit] (linux/bitops.h) is "check
    and atomically clear": it returns whether bit [nr] was set and leaves it
    clear, in one step. *)
Definition test_and_clear_bit (nr : Z) : M uworld bool :=
  fun u =>
    (Z.testbit (event_flags (u_rcd u)) nr,
     with_rcd (fun r => with_event_flags (Z.clearbit (event_flags r) nr) r) u).

(** Modelled from the spec: [wake_up_interruptible] (linux/wait.h) is "wake
    all blocked": every consumer on the wait queue is woken and the queue is
    left empty; the call is recorded with the consumers it woke. *)
Definition wake_up_interruptible : M uworld unit :=
  fun u =>
    (tt, with_rcd (with_wait []) (with_ucall (call_wake_up_interruptible (wait (u_rcd u))) u)).

Section Uctxt.
Context {K : hfi_h}.

(** Modelled from the spec: [hfi1_rcvctrl] (chip.c) with
    [HFI1_RCVCTRL_INTRAVAIL_DIS] is "disable the hardware's receive available
    interrupt-enable bit for this context"; any other operation leaves that
    bit alone here.  The call is recorded with its operation. *)
Definition hfi1_rcvctrl (op : Z) : M uworld unit :=
  fun u =>
    let u1 := with_ucall (call_hfi1_rcvctrl op (u_rcd u)) u in
    (tt, if op =? HFI1_RCVCTRL_INTRAVAIL_DIS
         then mk_uworld (u_rcd u1) false (u_calls u1)
         else u1).

(** [void handle_user_interrupt(struct hfi1_ctxtdata *rcd)] *)
Definition handle_user_interrupt : M uworld unit :=
  spin_lock_irqsave;;
  rcd ← get_rcd;
  (if bitmap_empty (in_use_ctxts rcd) HFI1_MAX_SHARED_CTXTS then
     mret tt
   else
     rcv ← test_and_clear_bit HFI1_CTXT_WAITING_RCV;
     if (rcv : bool) then
       wake_up_interruptible;;
       hfi1_rcvctrl HFI1_RCVCTRL_INTRAVAIL_DIS
     else
       urg ← test_and_clear_bit HFI1_CTXT_WAITING_URG;
       if (urg : bool) then
         set_rcd (fun r => with_urgent (u32 (urgent r + 1)) r);;
         wake_up_interruptible
       else mret tt);;
  spin_unlock_irqrestore.

End Uctxt.

(** ** One assignment of the constants

    Used to run the code on concrete devices: keys, flags, bit numbers and
    event kinds have the values of the driver's headers, the register
    offsets are arbitrary distinct numbers. *)
Definition linux_hfi_h : hfi_h := {|
  NEIGHBOR_TYPE_HFI := 0;
  REMOTE_LNI_INFO := 13;
  GENERAL_CONFIG := 4;
  MGMT_ALLOWED_SHIFT := 23;
  MGMT_ALLOWED_MASK := 1;
  FULL_MGMT_P_KEY := 65535;
  HFI1_IB_CFG_PKEYS := 17;
  HFI1_INITTED := 1;
  ICODE_FUNCTIONAL_SIMULATOR := 3;
  DC_DC8051_STS_REMOTE_GUID := 48;
  DC_DC8051_STS_REMOTE_NODE_TYPE := 56;
  DC_DC8051_STS_REMOTE_NODE_TYPE_VAL_MASK := 3;
  DC_DC8051_STS_REMOTE_PORT_NO := 64;
  DC_DC8051_STS_REMOTE_PORT_NO_VAL_SMASK := 255;
  DC_DC8051_STS_REMOTE_FM_SECURITY := 72;
  DC_DC8051_STS_LOCAL_FM_SECURITY_DISABLED_MASK := 1;
  OPA_LINKDOWN_REASON_NONE := 0;
  HFI1_ODR_MASK := fun rsn => Z.land rsn 15;
  FREEZE_SELF := 2;
  FREEZE_LINK_DOWN := 4;
  _HFI1_EVENT_LINKDOWN_BIT := 1;
  IB_EVENT_PORT_ERR := 10;
  HFI1_MAX_SHARED_CTXTS := 8;
  HFI1_CTXT_WAITING_RCV := 3;
  HFI1_CTXT_WAITING_URG := 4;
  HFI1_RCVCTRL_INTRAVAIL_DIS := 32
|}.

(** ** Observations on a run *)

(** The device "has completed upstream registration": [dd->flags &
    HFI1_INITTED] is not zero. *)
Definition registered {K : hfi_h} (dd : hfi1_devdata) : bool :=
  negb (Z.land (flags dd) HFI1_INITTED =? 0).

(** The event records handed to [ib_dispatch_event], oldest first. *)
Definition forwarded (l : list call) : list ib_event :=
  omap (fun c => match c with
                 | call_ib_dispatch_event e => Some e
                 | _ => None
                 end) l.

(** What listeners upstream are told: an event dispatched by
    [signal_ib_event], or that the partition keys of a port changed. *)
Inductive notification :=
| port_event (e : ib_event)
| pkey_change (dev pn : Z).

Definition notifications (l : list call) : list notification :=
  omap (fun c => match c with
                 | call_ib_dispatch_event e => Some (port_event e)
                 | call_hfi1_event_pkey_change seen pn =>
                     Some (pkey_change (ibdev seen) pn)
                 | _ => None
                 end) l.

(** The link-up flag a collaborator finds in the device it is handed. *)
Definition seen_linkup (c : call) : option Z :=
  match c with
  | call_hfi1_set_ib_cfg seen _ _
  | call_hfi1_event_pkey_change seen _
  | call_get_linkup_link_widths seen
  | call_reset_link_credits seen
  | call_start_freeze_handling seen _
  | call_hfi1_set_uevent_bits seen _ => Some (linkup (pport seen))
  | _ => None
  end.

(** Slot 2 of the partition-key table is unset or the full-management key. *)
Definition pkey2_ok {K : hfi_h} (ppd : hfi1_pportdata) : Prop :=
  pkeys ppd !! 2%nat = Some 0 \/ pkeys ppd !! 2%nat = Some FULL_MGMT_P_KEY.

(** [signal_ib_event] called once for each kind of [evs], in order. *)
Fixpoint signal_ib_events {K : hfi_h} (evs : list Z) : M world unit :=
  match evs with
  | [] => mret tt
  | ev :: rest => signal_ib_event ev;; signal_ib_events rest
  end.

(** A run of link notifications, in order. *)
Fixpoint handle_linkup_changes {K : hfi_h} (ups : list Z) : M world unit :=
  match ups with
  | [] => mret tt
  | up :: rest => handle_linkup_change up;; handle_linkup_changes rest
  end.

(** The wake-ups among the calls of the interrupt path. *)
Definition wakes (l : list ucall) : list (list Z) :=
  omap (fun c => match c with
                 | call_wake_up_interruptible q => Some q
                 | _ => None
                 end) l.

(** ** The transitions in closed form *)

(** The test of the up path for a link that came up without the VerifyCap
    handshake: [quick_linkup || dd->icode == ICODE_FUNCTIONAL_SIMULATOR]. *)
Definition simulated {K : hfi_h} (w : world) : bool :=
  negb (quick_linkup w =? 0) || (icode (w_dd w) =? ICODE_FUNCTIONAL_SIMULATOR).

(** The port once the four neighbor registers have been read into it. *)
Definition lni_port {K : hfi_h} (w : world) : hfi1_pportdata :=
  with_neighbor_fm_security
    (Z.land (csr w DC_DC8051_STS_REMOTE_FM_SECURITY)
            DC_DC8051_STS_LOCAL_FM_SECURITY_DISABLED_MASK)
    (with_neighbor_port_number
       (Z.land (csr w DC_DC8051_STS_REMOTE_PORT_NO)
               DC_DC8051_STS_REMOTE_PORT_NO_VAL_SMASK)
       (with_neighbor_type
          (Z.land (csr w DC_DC8051_STS_REMOTE_NODE_TYPE)
                  DC_DC8051_STS_REMOTE_NODE_TYPE_VAL_MASK)
          (with_neighbor_guid (csr w DC_DC8051_STS_REMOTE_GUID)
                              (pport (w_dd w))))).

(** What the hardware says about management: 1 for an adapter as neighbor,
    the [MGMT_ALLOWED] field of the partner's frame otherwise. *)
Definition lni_mgmt_allowed {K : hfi_h} (w : world) : Z :=
  if Z.land (csr w DC_DC8051_STS_REMOTE_NODE_TYPE)
            DC_DC8051_STS_REMOTE_NODE_TYPE_VAL_MASK =? NEIGHBOR_TYPE_HFI
  then 1
  else Z.land (Z.shiftr (lni_config w REMOTE_LNI_INFO GENERAL_CONFIG)
                        MGMT_ALLOWED_SHIFT) MGMT_ALLOWED_MASK.

(** The port after the negotiation, before it is marked up. *)
Definition negotiated_port {K : hfi_h} (w : world) : hfi1_pportdata :=
  let p := with_mgmt_allowed (lni_mgmt_allowed w) (lni_port w) in
  if lni_mgmt_allowed w =? 0 then p
  else with_pkeys (<[2%nat := FULL_MGMT_P_KEY]> (pkeys p)) p.

(** The device an up-transition leaves. *)
Definition linkup_dd {K : hfi_h} (w : world) : hfi1_devdata :=
  with_pport
    (fun _ => with_offline_disabled_reason
                (HFI1_ODR_MASK OPA_LINKDOWN_REASON_NONE)
                (with_linkup 1 (negotiated_port w)))
    (w_dd w).

(** The calls an up-transition makes, in order. *)
Definition linkup_calls {K : hfi_h} (w : world) : list call :=
  let dd := w_dd w in
  let old := pkey2 (pport dd) in
  let seen := with_pport (fun _ => negotiated_port w) dd in
  (if simulated w
   then [call_set_up_vau (vau dd); call_set_up_vl15 (vl15_init dd);
         call_assign_remote_cm_au_table (vcu dd)]
   else []) ++
  [call_dd_dev_info (neighbor_guid (lni_port w)) (neighbor_type (lni_port w))
                    (neighbor_port_number (lni_port w));
   call_udelay LINK_UP_DELAY] ++
  (if lni_mgmt_allowed w =? 0 then []
   else (if (old =? 0) || (old =? FULL_MGMT_P_KEY) then []
         else [call_dd_dev_warn old FULL_MGMT_P_KEY]) ++
        [call_hfi1_set_ib_cfg seen HFI1_IB_CFG_PKEYS 0;
         call_hfi1_event_pkey_change seen (port (pport dd))]) ++
  [call_get_linkup_link_widths (linkup_dd w)].

Definition linkup_world {K : hfi_h} (w : world) : world :=
  mk_world (linkup_dd w) (quick_linkup w) (csr w) (lni_config w)
           (w_calls w ++ linkup_calls w).

(** The device a down-transition leaves. *)
Definition linkdown_dd {K : hfi_h} (w : world) : hfi1_devdata :=
  with_pport
    (fun p => with_neighbor_normal 0
                (with_actual_vls_operational 0 (with_linkup 0 p)))
    (with_events (Z.setbit (events (w_dd w)) _HFI1_EVENT_LINKDOWN_BIT)
                 (w_dd w)).

(** The configuration writes asked of [hfi1_set_ib_cfg]: which, and the
    value. *)
Definition cfg_writes (l : list call) : list (Z * Z) :=
  omap (fun c => match c with
                 | call_hfi1_set_ib_cfg _ which val => Some (which, val)
                 | _ => None
                 end) l.

(** The credit programming among the calls. *)
Definition credit_setup (l : list call) : list call :=
  omap (fun c => match c with
                 | call_set_up_vau _
                 | call_set_up_vl15 _
                 | call_assign_remote_cm_au_table _ => Some c
                 | _ => None
                 end) l.

(** The warnings among the calls: the value found and the value written. *)
Definition warnings (l : list call) : list (Z * Z) :=
  omap (fun c => match c with
                 | call_dd_dev_warn old new => Some (old, new)
                 | _ => None
                 end) l.

(** Taking or releasing the shared-context lock. *)
Definition is_lock_call (c : ucall) : bool :=
  match c with
  | call_spin_lock_irqsave | call_spin_unlock_irqrestore => true
  | _ => false
  end.

(** ** Concrete devices *)

(** Port 1 with the default and limited-management keys installed, eight
    lanes operational and a neighbor held to be normal. *)
Definition port1 (up : Z) (key2 : Z) : hfi1_pportdata :=
  {| port := 1; linkup := up; neighbor_guid := 0; neighbor_type := 1;
     neighbor_port_number := 0; neighbor_fm_security := 0;
     pkeys := [65535; 32767; key2; 0; 0; 0; 0; 0; 0; 0; 0; 0; 0; 0; 0; 0];
     mgmt_allowed := 0; offline_disabled_reason := 0;
     actual_vls_operational := 8; neighbor_normal := 1 |}.

(** Device 7 (its identity towards the IB core), on an FPGA emulation. *)
Definition dev1 (fl : Z) (ppd : hfi1_pportdata) : hfi1_devdata :=
  {| flags := fl; icode := 2; vau := 3; vcu := 0; vl15_init := 8;
     ibdev := 7; events := 0; pport := ppd |}.

(** A world with nothing logged yet, whose partner reports GUID 4660 and node
    type [type] and whose configuration frames all read [frame]; every other
    register reads 0. *)
Definition world1 (dd : hfi1_devdata) (type frame : Z) : world :=
  {| w_dd := dd; quick_linkup := 0;
     csr := fun reg =>
              if reg =? @DC_DC8051_STS_REMOTE_GUID linux_hfi_h then 4660
              else if reg =? @DC_DC8051_STS_REMOTE_NODE_TYPE linux_hfi_h then type
              else 0;
     lni_config := fun _ _ => frame;
     w_calls := [] |}.

(** A context with two consumers blocked on its wait queue, the
    receive-available interrupt enabled and nothing logged yet. *)
Definition uworld1 (bm fl : Z) : uworld :=
  {| u_rcd := {| in_use_ctxts := bm; event_flags := fl; urgent := 5;
                 wait := [11; 12] |};
     rcvavail_intr_enabled := true;
     u_calls := [] |}.

(** ** Proof support *)

Create HintDb intr_ops.

#[export] Hint Unfold exec mbind mret M_bind M_ret
  get_dd get_ppd set_ppd log log_dd
  read_csr read_8051_config set_up_vau set_up_vl15 assign_remote_cm_au_table
  dd_dev_info dd_dev_warn udelay hfi1_set_ib_cfg hfi1_event_pkey_change
  ib_dispatch_event get_linkup_link_widths reset_link_credits
  start_freeze_handling hfi1_set_uevent_bits
  get_rcd set_rcd ulog spin_lock_irqsave spin_unlock_irqrestore
  test_and_clear_bit wake_up_interruptible hfi1_rcvctrl : intr_ops.

(** Unfold the monad and the collaborators, then compute. *)
Ltac run := autounfold with intr_ops; cbn.

(** Split on the first test the computation is stuck on. *)
Ltac case_if :=
  match goal with
  | |- context [if negb ?c then _ else _] => destruct c eqn:?
  | |- context [if ?c then _ else _] => destruct c eqn:?
  end; cbn.

(** Compute the field updates and reads of the device, innermost first. *)
Ltac setters :=
  cbv beta iota zeta delta
    [with_dd with_call with_pport with_events with_pkeys with_mgmt_allowed
     with_linkup with_neighbor_guid with_neighbor_type
     with_neighbor_port_number with_neighbor_fm_security
     with_offline_disabled_reason with_actual_vls_operational
     with_neighbor_normal pkey2
     w_dd quick_linkup csr lni_config w_calls
     flags icode vau vcu vl15_init ibdev events pport
     port linkup neighbor_guid neighbor_type neighbor_port_number
     neighbor_fm_security pkeys mgmt_allowed offline_disabled_reason
     actual_vls_operational neighbor_normal] in *.

(** Close a case in which one test came out both ways. *)
Ltac clash :=
  match goal with
  | H1 : ?b = true, H2 : ?b = false |- _ => rewrite H1 in H2; discriminate H2
  | H : true = false |- _ => discriminate H
  | H : false = true |- _ => discriminate H
  end.

(** Start the up path on a world given field by field. *)
Ltac enter_up Hx Hu :=
  unfold handle_linkup_change, set_mgmt_allowed, add_full_mgmt_pkey;
  autounfold with intr_ops; cbn [pport w_dd linkup]; rewrite Hx, Hu; cbn.

(** A list of calls without its last three. *)
Ltac but_last3 l :=
  lazymatch l with
  | [_; _; _] => constr:(@nil call)
  | ?a :: ?r => let r' := but_last3 r in constr:(a :: r')
  end.

Lemma to_bool_nonzero (x : Z) : x <> 0 -> to_bool x = 1.
Proof. unfold to_bool. intros Hx. destruct (Z.eqb_spec x 0); [contradiction | reflexivity]. Qed.

Lemma lxor_to_bool_same (a x : Z) : a = to_bool x -> (Z.lxor a (to_bool x) =? 0) = true.
Proof. intros ->. rewrite Z.lxor_nilpotent. reflexivity. Qed.

Lemma clearbit_of_clear (a n : Z) : Z.testbit a n = false -> Z.clearbit a n = a.
Proof.
  intros Hn. apply Z.bits_inj'. intros m _.
  rewrite Z.clearbit_eqb. destruct (Z.eqb_spec n m) as [-> | _]; cbn.
  - rewrite Hn. apply andb_false_r.
  - apply andb_true_r.
Qed.

Lemma bitmap_empty_bits (bm nbits : Z) :
  0 <= nbits ->
  bitmap_empty bm nbits = true <->
  forall i, 0 <= i < nbits -> Z.testbit bm i = false.
Proof.
  intros Hn. unfold bitmap_empty. rewrite Z.eqb_eq. split.
  - intros Hz i Hi.
    assert (Hb : Z.testbit (Z.land bm (Z.ones nbits)) i = false)
      by (rewrite Hz; apply Z.bits_0).
    rewrite Z.land_spec, Z.ones_spec_low, andb_true_r in Hb by lia. exact Hb.
  - intros Hb. apply Z.bits_inj'. intros i Hi.
    rewrite Z.land_spec, Z.bits_0.
    destruct (Z.lt_ge_cases i nbits).
    + rewrite Hb by lia. reflexivity.
    + rewrite Z.ones_spec_high by lia. apply andb_false_r.
Qed.

Lemma forwarded_app (l1 l2 : list call) :
  forwarded (l1 ++ l2) = forwarded l1 ++ forwarded l2.
Proof. apply omap_app. Qed.


Lemma wakes_app (l1 l2 : list ucall) : wakes (l1 ++ l2) = wakes l1 ++ wakes l2.
Proof. apply omap_app. Qed.

(** ** The management permission negotiator *)

Section Negotiator.
Context {K : hfi_h}.

(** C8.  [set_mgmt_allowed] sets the management-allowed attribute to 1 when
    the neighbor's node type is [NEIGHBOR_TYPE_HFI], and otherwise to the
    field [MGMT_ALLOWED] of the partner's general-configuration frame; the
    world it leaves is the one it found with that attribute alone rewritten:
    no other port field, no device field and no call. *)
Theorem set_mgmt_allowed_spec (w : world) :
  let ppd := pport (w_dd w) in
  let w' := exec set_mgmt_allowed w in
  (neighbor_type ppd = NEIGHBOR_TYPE_HFI ->
   mgmt_allowed (pport (w_dd w')) = 1) /\
  (neighbor_type ppd <> NEIGHBOR_TYPE_HFI ->
   mgmt_allowed (pport (w_dd w')) =
   Z.land (Z.shiftr (lni_config w REMOTE_LNI_INFO GENERAL_CONFIG)
                    MGMT_ALLOWED_SHIFT) MGMT_ALLOWED_MASK) /\
  w' = with_dd (with_pport (with_mgmt_allowed (mgmt_allowed (pport (w_dd w'))))) w.
Proof.
  unfold set_mgmt_allowed. run.
  destruct (Z.eqb_spec (neighbor_type (pport (w_dd w))) NEIGHBOR_TYPE_HFI) as [He | Hne];
    cbn; repeat split; intros; try reflexivity; contradiction.
Qed.

(** What [add_full_mgmt_pkey] does to a table that has a slot 2: the
    full-management key goes there, no other slot and nothing else of the
    device changes, one warning is logged exactly when the old value was
    neither zero nor the key, then the table is pushed and the change
    notified. *)
Lemma add_full_mgmt_pkey_spec (w : world) :
  (2 < length (pkeys (pport (w_dd w))))%nat ->
  let ppd := pport (w_dd w) in
  let old := pkey2 ppd in
  let w' := exec add_full_mgmt_pkey w in
  pkeys (pport (w_dd w')) !! 2%nat = Some FULL_MGMT_P_KEY /\
  pkey2_ok (pport (w_dd w')) /\
  (forall i : nat, i <> 2%nat ->
     pkeys (pport (w_dd w')) !! i = pkeys ppd !! i) /\
  w_dd w' =
    with_pport (with_pkeys (<[2%nat := FULL_MGMT_P_KEY]> (pkeys ppd))) (w_dd w) /\
  w_calls w' =
    w_calls w ++
    (if (old =? 0) || (old =? FULL_MGMT_P_KEY) then []
     else [call_dd_dev_warn old FULL_MGMT_P_KEY]) ++
    [call_hfi1_set_ib_cfg (w_dd w') HFI1_IB_CFG_PKEYS 0;
     call_hfi1_event_pkey_change (w_dd w') (port ppd)].
Proof.
  intros Hlen ppd old w'.
  assert (Hdd : w_dd w' =
    with_pport (with_pkeys (<[2%nat := FULL_MGMT_P_KEY]> (pkeys ppd))) (w_dd w)).
  { subst w' ppd. unfold add_full_mgmt_pkey. run.
    destruct (negb _); reflexivity. }
  assert (H2 : pkeys (pport (w_dd w')) !! 2%nat = Some FULL_MGMT_P_KEY).
  { rewrite Hdd. cbn. apply list_lookup_insert_eq. exact Hlen. }
  split; [exact H2 |]. split; [right; exact H2 |].
  split; [| split; [exact Hdd |]].
  - intros i Hi. rewrite Hdd. cbn. apply list_lookup_insert_ne. congruence.
  - rewrite Hdd. subst w' old ppd. unfold add_full_mgmt_pkey. run.
    destruct ((pkey2 (pport (w_dd w)) =? 0) ||
              (pkey2 (pport (w_dd w)) =? FULL_MGMT_P_KEY)); cbn;
      rewrite <- ?app_assoc; reflexivity.
Qed.

End Negotiator.

(** ** The event notifier *)

Section Notifier.
Context {K : hfi_h}.

Lemma signal_ib_event_unregistered (w : world) (ev : Z) :
  registered (w_dd w) = false -> signal_ib_event ev w = (tt, w).
Proof.
  unfold registered, signal_ib_event. run. intros Hr.
  apply negb_false_iff in Hr. rewrite Hr. reflexivity.
Qed.

Lemma signal_ib_event_registered (w : world) (ev : Z) :
  registered (w_dd w) = true ->
  signal_ib_event ev w =
  (tt, with_call (call_ib_dispatch_event
                    (mk_ib_event (ibdev (w_dd w)) (port (pport (w_dd w))) ev)) w).
Proof.
  unfold registered, signal_ib_event. run. intros Hr.
  apply negb_true_iff in Hr. rewrite Hr. reflexivity.
Qed.

Lemma signal_ib_events_unregistered (evs : list Z) (w : world) :
  registered (w_dd w) = false -> signal_ib_events evs w = (tt, w).
Proof.
  intros Hr. induction evs as [| ev rest IH]; [reflexivity |].
  cbn [signal_ib_events]. unfold mbind, M_bind.
  rewrite signal_ib_event_unregistered by exact Hr. exact IH.
Qed.

Lemma signal_ib_event_effect (w : world) (ev : Z) :
  w_dd (exec (signal_ib_event ev) w) = w_dd w /\
  w_calls (exec (signal_ib_event ev) w) =
    w_calls w ++
    (if registered (w_dd w)
     then [call_ib_dispatch_event
             (mk_ib_event (ibdev (w_dd w)) (port (pport (w_dd w))) ev)]
     else []).
Proof.
  unfold exec. destruct (registered (w_dd w)) eqn:Hr.
  - rewrite signal_ib_event_registered by exact Hr. split; reflexivity.
  - rewrite signal_ib_event_unregistered by exact Hr. cbn.
    rewrite app_nil_r. split; reflexivity.
Qed.

(** C6.  [signal_ib_event] hands an event to [ib_dispatch_event] exactly when
    the device is registered ([HFI1_INITTED] set in its flags).  The record
    then carries the device's identity, the port's number and the kind it was
    given, and nothing but the call log changes; on a device that is not
    registered any run of calls leaves the world, and so the log, as it
    was. *)
Theorem signal_ib_event_spec (w : world) (ev : Z) :
  let dd := w_dd w in
  let w' := exec (signal_ib_event ev) w in
  forwarded (w_calls w') =
    forwarded (w_calls w) ++
    (if registered dd
     then [{| device := ibdev dd; port_num := port (pport dd); event := ev |}]
     else []) /\
  (length (forwarded (w_calls w')) = S (length (forwarded (w_calls w))) <->
   registered dd = true) /\
  w_dd w' = dd /\
  (registered dd = false ->
   forall evs : list Z, exec (signal_ib_events evs) w = w).
Proof.
  intros dd w'. subst dd w'. unfold exec.
  destruct (registered (w_dd w)) eqn:Hr.
  - rewrite signal_ib_event_registered by exact Hr. cbn.
    rewrite forwarded_app. cbn. rewrite length_app. cbn.
    repeat split; try reflexivity; try discriminate. intros _. lia.
  - rewrite signal_ib_event_unregistered by exact Hr. cbn.
    rewrite app_nil_r. repeat split; try reflexivity; try lia; try discriminate.
    intros _ evs. rewrite signal_ib_events_unregistered by exact Hr. reflexivity.
Qed.

End Notifier.

(** ** The link state controller *)

Section Controller.
Context {K : hfi_h}.

Lemma no_change_nothing_to_do (w : world) (up : Z) :
  linkup (pport (w_dd w)) = to_bool up ->
  handle_linkup_change up w = (tt, w).
Proof.
  intros Hsame. unfold handle_linkup_change. run.
  rewrite (lxor_to_bool_same _ _ Hsame). reflexivity.
Qed.

(** Any number of repeats of the state the port records changes nothing. *)
Lemma handle_linkup_changes_redundant (w : world) (up : Z) (n : nat) :
  linkup (pport (w_dd w)) = to_bool up ->
  handle_linkup_changes (replicate n up) w = (tt, w).
Proof.
  intros Hsame. induction n as [| n IH]; [reflexivity |].
  cbn [replicate handle_linkup_changes]. unfold mbind, M_bind.
  rewrite no_change_nothing_to_do by exact Hsame. exact IH.
Qed.

(** C2.  A notification that asks for the state the port already records is
    dropped on the spot: [handle_linkup_change] leaves the world it was
    given, device, port, event bits and call log alike, so nothing is
    rewritten and no collaborator, the event consumer included, is called. *)
Theorem handle_linkup_change_redundant (w : world) (up : Z) :
  linkup (pport (w_dd w)) = to_bool up ->
  exec (handle_linkup_change up) w = w /\
  forwarded (w_calls (exec (handle_linkup_change up) w)) = forwarded (w_calls w).
Proof.
  intros Hsame. unfold exec.
  rewrite no_change_nothing_to_do by exact Hsame. split; reflexivity.
Qed.

(** C1, amended.  From a port recorded as up, a link-down notification leaves
    the link-up flag, the operational-lane count and the neighbor-normal flag
    at zero and the link-down bit set in the user-visible event word.  It
    resets the link credits, starts freeze handling with both reasons, marks the
    event bit and, last, runs [signal_ib_event] once with the port-error kind:
    that one event reaches the event consumer when the device is registered
    and is dropped when it is not. *)
Theorem handle_linkup_change_down (w : world) :
  linkup (pport (w_dd w)) <> 0 ->
  0 <= _HFI1_EVENT_LINKDOWN_BIT ->
  let dd := w_dd w in
  let w' := exec (handle_linkup_change 0) w in
  linkup (pport (w_dd w')) = 0 /\
  actual_vls_operational (pport (w_dd w')) = 0 /\
  neighbor_normal (pport (w_dd w')) = 0 /\
  Z.testbit (events (w_dd w')) _HFI1_EVENT_LINKDOWN_BIT = true /\
  forwarded (w_calls w') =
    forwarded (w_calls w) ++
    (if registered dd
     then [{| device := ibdev dd; port_num := port (pport dd);
              event := IB_EVENT_PORT_ERR |}]
     else []) /\
  exists (seen : hfi1_devdata) (w1 : world),
    linkup (pport seen) = 0 /\
    w_calls w1 =
      w_calls w ++
      [call_reset_link_credits seen;
       call_start_freeze_handling seen (Z.lor FREEZE_SELF FREEZE_LINK_DOWN);
       call_hfi1_set_uevent_bits seen _HFI1_EVENT_LINKDOWN_BIT] /\
    w' = exec (signal_ib_event IB_EVENT_PORT_ERR) w1.
Proof.
  intros Hup Hbit dd w'. subst dd w'.
  pose (seen := with_pport (with_actual_vls_operational 0)
                  (with_pport (with_linkup 0) (w_dd w))).
  pose (w1 := exec (set_ppd (with_neighbor_normal 0))
                (exec (hfi1_set_uevent_bits _HFI1_EVENT_LINKDOWN_BIT)
                   (exec (start_freeze_handling (Z.lor FREEZE_SELF FREEZE_LINK_DOWN))
                      (exec reset_link_credits
                         (with_dd (fun _ => seen) w))))).
  assert (Hrun : exec (handle_linkup_change 0) w =
                 exec (signal_ib_event IB_EVENT_PORT_ERR) w1).
  { subst w1 seen. apply Z.eqb_neq in Hup.
    destruct w as [[fl ic va vc vl ib evs ppd] ql cs lni calls]. destruct ppd.
    cbn in Hup. unfold handle_linkup_change, signal_ib_event. run.
    rewrite Z.lxor_0_r, Hup. cbn. destruct (_ =? 0); reflexivity. }
  assert (Hcalls : w_calls w1 =
      w_calls w ++
      [call_reset_link_credits seen;
       call_start_freeze_handling seen (Z.lor FREEZE_SELF FREEZE_LINK_DOWN);
       call_hfi1_set_uevent_bits seen _HFI1_EVENT_LINKDOWN_BIT]).
  { subst w1 seen. run. rewrite <- !app_assoc. reflexivity. }
  assert (Hdd : w_dd w1 =
      with_pport (with_neighbor_normal 0)
        (with_events (Z.setbit (events (w_dd w)) _HFI1_EVENT_LINKDOWN_BIT) seen)).
  { subst w1 seen. run. reflexivity. }
  pose proof (signal_ib_event_effect w1 IB_EVENT_PORT_ERR) as (Hsame & Hfw).
  assert (Hreg : registered (w_dd w1) = registered (w_dd w))
    by (rewrite Hdd; reflexivity).
  rewrite Hrun.
  split; [rewrite Hsame, Hdd; reflexivity |].
  split; [rewrite Hsame, Hdd; reflexivity |].
  split; [rewrite Hsame, Hdd; reflexivity |].
  split; [rewrite Hsame, Hdd; cbn; apply Z.setbit_eq; exact Hbit |].
  split.
  - rewrite Hfw, forwarded_app, Hcalls, forwarded_app, Hreg, Hdd. cbn.
    rewrite app_nil_r. destruct (registered (w_dd w)); reflexivity.
  - exists seen, w1. split; [reflexivity |]. split; [exact Hcalls | reflexivity].
Qed.

(** The up path is taken from a port recorded as down. *)
Lemma up_from_down (a up : Z) :
  a = 0 -> up <> 0 -> (Z.lxor a (to_bool up) =? 0) = false /\ (up =? 0) = false.
Proof.
  intros -> Hup. rewrite (to_bool_nonzero _ Hup). split; [reflexivity |].
  now apply Z.eqb_neq.
Qed.

(** C4.  In an up-transition that finds management allowed, the push of the
    partition-key table and the partition-key change notification are handed a
    device whose port already holds the full-management key in slot 2 and whose
    link-up flag is still 0; no call before them is handed the device at all,
    and only the call after them, the query of the link widths, finds the flag
    at 1, which is also how the transition leaves it. *)
Theorem pkey_update_precedes_linkup (w : world) (up : Z) :
  linkup (pport (w_dd w)) = 0 ->
  up <> 0 ->
  mgmt_allowed (pport (w_dd (exec (handle_linkup_change up) w))) <> 0 ->
  let w' := exec (handle_linkup_change up) w in
  exists (pre : list call) (seen : hfi1_devdata),
    w_calls w' =
      w_calls w ++ pre ++
      [call_hfi1_set_ib_cfg seen HFI1_IB_CFG_PKEYS 0;
       call_hfi1_event_pkey_change seen (port (pport (w_dd w)));
       call_get_linkup_link_widths (w_dd w')] /\
    Forall (fun c => seen_linkup c = None) pre /\
    linkup (pport seen) = 0 /\
    pkeys (pport seen) = <[2%nat := FULL_MGMT_P_KEY]> (pkeys (pport (w_dd w))) /\
    linkup (pport (w_dd w')) = 1.
Proof.
  intros Hdown Hup. destruct (up_from_down _ _ Hdown Hup) as [Hx Hu].
  destruct w as [[fl ic va vc vl ib evs ppd] ql cs lni calls]. destruct ppd.
  cbn in Hdown, Hx. enter_up Hx Hu. repeat case_if.
  all: intros Hm; setters.
  all: try (exfalso; apply Hm; apply Z.eqb_eq; assumption).
  all: rewrite <- ?app_assoc; cbn [app].
  all: match goal with
       | |- exists pre seen, _ ++ ?l = _ /\ _ =>
           let p := but_last3 l in exists p
       end.
  all: eexists; (split; [reflexivity |]).
  all: (split; [repeat constructor |]); subst; repeat split.
Qed.

(** C9, amended.  An up-transition never reaches [signal_ib_event]: the
    events handed to [ib_dispatch_event] are those handed before it, whether
    the device is registered or not.  What it does tell listeners is the
    partition-key change raised by [add_full_mgmt_pkey], once, exactly when it
    finds management allowed. *)
Theorem handle_linkup_change_up_notifications (w : world) (up : Z) :
  linkup (pport (w_dd w)) = 0 ->
  up <> 0 ->
  let dd := w_dd w in
  let w' := exec (handle_linkup_change up) w in
  forwarded (w_calls w') = forwarded (w_calls w) /\
  notifications (w_calls w') =
    notifications (w_calls w) ++
    (if mgmt_allowed (pport (w_dd w')) =? 0 then []
     else [pkey_change (ibdev dd) (port (pport dd))]).
Proof.
  intros Hdown Hup. destruct (up_from_down _ _ Hdown Hup) as [Hx Hu].
  destruct w as [[fl ic va vc vl ib evs ppd] ql cs lni calls]. destruct ppd.
  cbn in Hdown, Hx. enter_up Hx Hu. repeat case_if.
  all: setters; try discriminate.
  all: rewrite <- ?app_assoc; cbn [app]; rewrite !omap_app; cbn;
       rewrite ?app_nil_r; split; reflexivity.
Qed.

(** After any notification the port records the state it was told. *)
Lemma handle_linkup_change_records (w : world) (up : Z) :
  linkup (pport (w_dd (exec (handle_linkup_change up) w))) = to_bool up.
Proof.
  destruct w as [[fl ic va vc vl ib evs ppd] ql cs lni calls]. destruct ppd.
  unfold handle_linkup_change, set_mgmt_allowed, add_full_mgmt_pkey,
    signal_ib_event.
  autounfold with intr_ops. cbn [pport w_dd linkup].
  destruct (Z.eqb_spec (Z.lxor linkup0 (to_bool up)) 0) as [Hsame | _].
  - apply Z.lxor_eq in Hsame. exact Hsame.
  - unfold to_bool. destruct (Z.eqb_spec up 0) as [-> | Hup]; cbn;
      repeat case_if; reflexivity.
Qed.

(** A notification repeated at once does nothing the second time. *)
Lemma handle_linkup_change_twice (w : world) (up : Z) :
  exec (handle_linkup_change up) (exec (handle_linkup_change up) w) =
  exec (handle_linkup_change up) w.
Proof.
  unfold exec at 1.
  rewrite no_change_nothing_to_do by apply handle_linkup_change_records.
  reflexivity.
Qed.

(** Every transition keeps slot 2 of the partition-key table unset or at the
    full-management key once it is so, and so does any run of them. *)
Lemma handle_linkup_change_pkey2_ok (w : world) (up : Z) :
  pkey2_ok (pport (w_dd w)) ->
  pkey2_ok (pport (w_dd (exec (handle_linkup_change up) w))).
Proof.
  intros Hok.
  assert (Hlen : (2 < length (pkeys (pport (w_dd w))))%nat).
  { destruct Hok as [H | H]; apply lookup_lt_Some in H; exact H. }
  destruct w as [[fl ic va vc vl ib evs ppd] ql cs lni calls]. destruct ppd.
  unfold pkey2_ok in *. cbn in Hok, Hlen.
  unfold handle_linkup_change, set_mgmt_allowed, add_full_mgmt_pkey,
    signal_ib_event.
  autounfold with intr_ops. cbn. repeat case_if.
  all: setters; try exact Hok.
  all: right; apply list_lookup_insert_eq; exact Hlen.
Qed.

Lemma handle_linkup_changes_pkey2_ok (ups : list Z) (w : world) :
  pkey2_ok (pport (w_dd w)) ->
  pkey2_ok (pport (w_dd (exec (handle_linkup_changes ups) w))).
Proof.
  revert w. induction ups as [| up rest IH]; intros w Hok; [exact Hok |].
  cbn [handle_linkup_changes]. unfold exec, mbind, M_bind.
  pose proof (handle_linkup_change_pkey2_ok w up Hok) as H1. unfold exec in H1.
  destruct (handle_linkup_change up w) as [[] w1]. cbn in H1.
  apply (IH w1 H1).
Qed.

End Controller.

(** ** The user-context interrupt dispatcher *)

Section Dispatcher.
Context {K : hfi_h}.

Lemma in_use_not_empty (bm : Z) :
  (exists i, 0 <= i < HFI1_MAX_SHARED_CTXTS /\ Z.testbit bm i = true) ->
  bitmap_empty bm HFI1_MAX_SHARED_CTXTS = false.
Proof.
  intros (i & Hi & Hb). apply not_true_is_false. intros He.
  assert (Hn : 0 <= HFI1_MAX_SHARED_CTXTS) by lia.
  rewrite (proj1 (bitmap_empty_bits _ _ Hn) He i Hi) in Hb. discriminate.
Qed.

(** C10.  Whatever the context holds and whichever way the call goes,
    [handle_user_interrupt] leaves the in-use bitmap as it found it. *)
Theorem handle_user_interrupt_keeps_in_use (u : uworld) :
  in_use_ctxts (u_rcd (exec handle_user_interrupt u)) = in_use_ctxts (u_rcd u).
Proof.
  unfold handle_user_interrupt. run.
  destruct (bitmap_empty _ _); cbn; [reflexivity |].
  destruct (Z.testbit (event_flags (u_rcd u)) HFI1_CTXT_WAITING_RCV); cbn.
  - destruct (_ =? _); reflexivity.
  - destruct (Z.testbit _ HFI1_CTXT_WAITING_URG); reflexivity.
Qed.

(** C7.  When no bit of the in-use bitmap is set among the
    [HFI1_MAX_SHARED_CTXTS] sub-contexts, [handle_user_interrupt] only takes
    and releases the lock: the context (event flags, urgent counter, wait
    queue) and the receive-available interrupt enable are as before and no
    wake-up is issued. *)
Theorem handle_user_interrupt_idle (u : uworld) :
  0 <= HFI1_MAX_SHARED_CTXTS ->
  (forall i, 0 <= i < HFI1_MAX_SHARED_CTXTS ->
             Z.testbit (in_use_ctxts (u_rcd u)) i = false) ->
  let u' := exec handle_user_interrupt u in
  u_rcd u' = u_rcd u /\
  rcvavail_intr_enabled u' = rcvavail_intr_enabled u /\
  wakes (u_calls u') = wakes (u_calls u) /\
  u_calls u' = u_calls u ++ [call_spin_lock_irqsave; call_spin_unlock_irqrestore].
Proof.
  intros Hn Hempty. apply (proj2 (bitmap_empty_bits _ _ Hn)) in Hempty.
  unfold handle_user_interrupt. run. rewrite Hempty. cbn.
  rewrite <- app_assoc, wakes_app, app_nil_r. destruct (u_rcd u). repeat split.
Qed.

(** C5.  With some sub-context in use, [handle_user_interrupt] serves the
    receive flag first.  If it is set, the flag is cleared (and nothing else in
    the flag word, the urgent flag included), the waiters are woken in one
    wake-up, the receive-available interrupt is disabled and the urgent counter
    stays.  Otherwise, if the urgent flag is set, it is cleared, the counter
    advances by one (as a [u32]), the waiters are woken in one wake-up and the
    interrupt enable is not touched.  With neither flag set the call only
    takes and releases the lock. *)
Theorem handle_user_interrupt_dispatch (u : uworld) :
  (exists i, 0 <= i < HFI1_MAX_SHARED_CTXTS /\
             Z.testbit (in_use_ctxts (u_rcd u)) i = true) ->
  HFI1_CTXT_WAITING_RCV <> HFI1_CTXT_WAITING_URG ->
  let rcd := u_rcd u in
  let fl := event_flags rcd in
  let u' := exec handle_user_interrupt u in
  let rcd' := u_rcd u' in
  (Z.testbit fl HFI1_CTXT_WAITING_RCV = true ->
   event_flags rcd' = Z.clearbit fl HFI1_CTXT_WAITING_RCV /\
   Z.testbit (event_flags rcd') HFI1_CTXT_WAITING_RCV = false /\
   Z.testbit (event_flags rcd') HFI1_CTXT_WAITING_URG =
     Z.testbit fl HFI1_CTXT_WAITING_URG /\
   urgent rcd' = urgent rcd /\
   wait rcd' = [] /\
   rcvavail_intr_enabled u' = false /\
   wakes (u_calls u') = wakes (u_calls u) ++ [wait rcd] /\
   u_calls u' =
     u_calls u ++
     [call_spin_lock_irqsave;
      call_wake_up_interruptible (wait rcd);
      call_hfi1_rcvctrl HFI1_RCVCTRL_INTRAVAIL_DIS rcd';
      call_spin_unlock_irqrestore]) /\
  (Z.testbit fl HFI1_CTXT_WAITING_RCV = false ->
   Z.testbit fl HFI1_CTXT_WAITING_URG = true ->
   event_flags rcd' = Z.clearbit fl HFI1_CTXT_WAITING_URG /\
   Z.testbit (event_flags rcd') HFI1_CTXT_WAITING_URG = false /\
   urgent rcd' = u32 (urgent rcd + 1) /\
   (0 <= urgent rcd < 2 ^ 32 - 1 -> urgent rcd' = urgent rcd + 1) /\
   wait rcd' = [] /\
   rcvavail_intr_enabled u' = rcvavail_intr_enabled u /\
   wakes (u_calls u') = wakes (u_calls u) ++ [wait rcd] /\
   u_calls u' =
     u_calls u ++
     [call_spin_lock_irqsave;
      call_wake_up_interruptible (wait rcd);
      call_spin_unlock_irqrestore]) /\
  (Z.testbit fl HFI1_CTXT_WAITING_RCV = false ->
   Z.testbit fl HFI1_CTXT_WAITING_URG = false ->
   rcd' = rcd /\
   rcvavail_intr_enabled u' = rcvavail_intr_enabled u /\
   wakes (u_calls u') = wakes (u_calls u) /\
   u_calls u' =
     u_calls u ++ [call_spin_lock_irqsave; call_spin_unlock_irqrestore]).
Proof.
  intros Hused Hne rcd fl u' rcd'. subst rcd' u' fl rcd.
  apply in_use_not_empty in Hused.
  destruct u as [[bm fl ur q] en calls]. cbn in Hused.
  unfold handle_user_interrupt. run. rewrite Hused. cbn.
  split; [| split].
  - intros Hr. rewrite Hr. cbn. rewrite Z.eqb_refl. cbn.
    rewrite Z.clearbit_eq, (Z.clearbit_neq _ _ _ Hne).
    rewrite <- !app_assoc, wakes_app. cbn. repeat split.
  - intros Hr Hu. rewrite Hr. cbn.
    rewrite (clearbit_of_clear _ _ Hr), Hu. cbn.
    rewrite ?(clearbit_of_clear _ _ Hr).
    rewrite Z.clearbit_eq, <- !app_assoc, wakes_app. cbn.
    repeat split. intros Hrange. unfold u32. apply Z.mod_small. lia.
  - intros Hr Hu. rewrite Hr. cbn.
    rewrite (clearbit_of_clear _ _ Hr), Hu. cbn.
    rewrite ?(clearbit_of_clear _ _ Hr).
    rewrite (clearbit_of_clear _ _ Hu), <- !app_assoc, wakes_app, app_nil_r.
    repeat split.
Qed.

End Dispatcher.

(** ** More on the link state controller *)

Section ControllerMore.
Context {K : hfi_h}.

Lemma exec_bind {S A B : Type} (m : M S A) (k : A -> M S B) (s : S) :
  exec (m ≫= k) s = exec (k (fst (m s))) (snd (m s)).
Proof. unfold exec, mbind, M_bind. destruct (m s). reflexivity. Qed.

Lemma handle_linkup_changes_cons (up : Z) (ups : list Z) (w : world) :
  exec (handle_linkup_changes (up :: ups)) w =
  exec (handle_linkup_changes ups) (exec (handle_linkup_change up) w).
Proof. cbn [handle_linkup_changes]. apply exec_bind. Qed.

(** The up path, whatever the port recorded, ends in [linkup_world]. *)
Lemma handle_linkup_change_up_world (w : world) (up : Z) :
  (Z.lxor (linkup (pport (w_dd w))) (to_bool up) =? 0) = false ->
  up <> 0 ->
  exec (handle_linkup_change up) w = linkup_world w.
Proof.
  intros Hx Hup. apply Z.eqb_neq in Hup.
  destruct w as [[fl ic va vc vl ib evs ppd] ql cs lni calls]. destruct ppd.
  cbn in Hx.
  unfold linkup_world, linkup_calls, linkup_dd, negotiated_port,
    lni_mgmt_allowed, lni_port, simulated.
  enter_up Hx Hup. repeat case_if.
  all: setters; try clash.
  all: rewrite <- ?app_assoc; reflexivity.
Qed.

(** The down path, whatever the port recorded, ends in [linkdown_dd] and
    runs [signal_ib_event] last. *)
Lemma handle_linkup_change_down_world (w : world) :
  linkup (pport (w_dd w)) <> 0 ->
  w_dd (exec (handle_linkup_change 0) w) = linkdown_dd w /\
  quick_linkup (exec (handle_linkup_change 0) w) = quick_linkup w /\
  csr (exec (handle_linkup_change 0) w) = csr w /\
  lni_config (exec (handle_linkup_change 0) w) = lni_config w.
Proof.
  intros Hup. apply Z.eqb_neq in Hup.
  destruct w as [[fl ic va vc vl ib evs ppd] ql cs lni calls]. destruct ppd.
  cbn in Hup. unfold handle_linkup_change, signal_ib_event, linkdown_dd. run.
  rewrite Z.lxor_0_r, Hup. cbn.
  destruct (Z.land fl HFI1_INITTED =? 0); cbn; repeat split; reflexivity.
Qed.

(** A masked value lies between 0 and a mask that is not negative. *)
Lemma land_le_r (a b : Z) : 0 <= b -> 0 <= Z.land a b <= b.
Proof.
  intros Hb. split; [apply Z.land_nonneg; right; exact Hb |].
  assert (Hdis : Z.land (Z.ldiff b a) (Z.land a b) = 0).
  { apply Z.bits_inj'. intros n Hn.
    rewrite Z.land_spec, Z.ldiff_spec, Z.land_spec, Z.bits_0.
    destruct (Z.testbit a n), (Z.testbit b n); reflexivity. }
  assert (Hsum : Z.ldiff b a + Z.land a b = b).
  { rewrite (Z.add_nocarry_lxor _ _ Hdis), (Z.lxor_lor _ _ Hdis).
    rewrite (Z.land_comm a b). apply Z.lor_ldiff_and. }
  assert (0 <= Z.ldiff b a) by (apply Z.ldiff_nonneg; left; exact Hb).
  lia.
Qed.

(** The calls of the down path, whatever the port recorded. *)
Lemma handle_linkup_change_down_calls (w : world) :
  linkup (pport (w_dd w)) <> 0 ->
  let seen := with_pport (fun p => with_actual_vls_operational 0 (with_linkup 0 p))
                         (w_dd w) in
  w_calls (exec (handle_linkup_change 0) w) =
    w_calls w ++
    [call_reset_link_credits seen;
     call_start_freeze_handling seen (Z.lor FREEZE_SELF FREEZE_LINK_DOWN);
     call_hfi1_set_uevent_bits seen _HFI1_EVENT_LINKDOWN_BIT] ++
    (if registered (w_dd w)
     then [call_ib_dispatch_event
             (mk_ib_event (ibdev (w_dd w)) (port (pport (w_dd w)))
                          IB_EVENT_PORT_ERR)]
     else []).
Proof.
  intros Hup. apply Z.eqb_neq in Hup.
  destruct w as [[fl ic va vc vl ib evs ppd] ql cs lni calls]. destruct ppd.
  cbn in Hup. unfold handle_linkup_change, signal_ib_event, registered. run.
  rewrite Z.lxor_0_r, Hup. cbn.
  destruct (Z.land fl HFI1_INITTED =? 0); cbn; rewrite <- ?app_assoc; reflexivity.
Qed.

(** The three ways a notification can go. *)
Lemma handle_linkup_change_cases (w : world) (up : Z) :
  (linkup (pport (w_dd w)) = to_bool up /\ exec (handle_linkup_change up) w = w) \/
  (linkup (pport (w_dd w)) <> to_bool up /\ up <> 0 /\
   exec (handle_linkup_change up) w = linkup_world w) \/
  (linkup (pport (w_dd w)) <> 0 /\ up = 0).
Proof.
  destruct (Z.eq_dec (linkup (pport (w_dd w))) (to_bool up)) as [Hsame | Hne].
  - left. split; [exact Hsame |]. unfold exec.
    rewrite no_change_nothing_to_do by exact Hsame. reflexivity.
  - right. destruct (Z.eq_dec up 0) as [-> | Hup].
    + right. split; [exact Hne | reflexivity].
    + left. split; [exact Hne |]. split; [exact Hup |].
      apply handle_linkup_change_up_world; [| exact Hup].
      apply Z.eqb_neq. intros Hx. apply Hne. now apply Z.lxor_eq.
Qed.

(** The up path hands the event consumer nothing. *)
Lemma linkup_calls_forwarded (w : world) : forwarded (linkup_calls w) = [].
Proof.
  unfold linkup_calls. cbn zeta.
  destruct (simulated w), (lni_mgmt_allowed w =? 0); cbn; try reflexivity;
    destruct (_ || _); reflexivity.
Qed.


Lemma credit_setup_app (l1 l2 : list call) :
  credit_setup (l1 ++ l2) = credit_setup l1 ++ credit_setup l2.
Proof. apply omap_app. Qed.

Lemma cfg_writes_app (l1 l2 : list call) :
  cfg_writes (l1 ++ l2) = cfg_writes l1 ++ cfg_writes l2.
Proof. apply omap_app. Qed.

Lemma warnings_app (l1 l2 : list call) :
  warnings (l1 ++ l2) = warnings l1 ++ warnings l2.
Proof. apply omap_app. Qed.

(** X1.  Whatever the port recorded before, zero, one or anything else, after
    [handle_linkup_change] its link-up flag is [!!linkup], and the same
    notification given again at once changes nothing. *)
Theorem handle_linkup_change_settles (w : world) (up : Z) :
  linkup (pport (w_dd (exec (handle_linkup_change up) w))) = to_bool up /\
  exec (handle_linkup_change up) (exec (handle_linkup_change up) w) =
    exec (handle_linkup_change up) w.
Proof.
  split; [apply handle_linkup_change_records | apply handle_linkup_change_twice].
Qed.

(** X2.  After any run of notifications the link-up flag is that of the last
    one, whatever came before it. *)
Theorem handle_linkup_changes_last (ups : list Z) (up : Z) (w : world) :
  linkup (pport (w_dd (exec (handle_linkup_changes (ups ++ [up])) w))) =
  to_bool up.
Proof.
  revert w. induction ups as [| u rest IH]; intros w.
  - cbn [app]. rewrite handle_linkup_changes_cons. cbn [handle_linkup_changes].
    apply handle_linkup_change_records.
  - cbn [app]. rewrite handle_linkup_changes_cons. apply IH.
Qed.


(** X4.  An up-transition rewrites the partition-key table only in slot 2 and
    only when it finds management allowed; it pushes the table to the hardware
    once in that case and not at all otherwise, and it warns exactly when it
    overwrites a slot 2 that held neither zero nor the full-management key. *)
Theorem linkup_installs_pkey (w : world) (up : Z) :
  linkup (pport (w_dd w)) = 0 ->
  up <> 0 ->
  let p := pport (w_dd w) in
  let w' := exec (handle_linkup_change up) w in
  let p' := pport (w_dd w') in
  pkeys p' =
    (if mgmt_allowed p' =? 0 then pkeys p
     else <[2%nat := FULL_MGMT_P_KEY]> (pkeys p)) /\
  cfg_writes (w_calls w') =
    cfg_writes (w_calls w) ++
    (if mgmt_allowed p' =? 0 then [] else [(HFI1_IB_CFG_PKEYS, 0)]) /\
  warnings (w_calls w') =
    warnings (w_calls w) ++
    (if (mgmt_allowed p' =? 0) || (pkey2 p =? 0) || (pkey2 p =? FULL_MGMT_P_KEY)
     then [] else [(pkey2 p, FULL_MGMT_P_KEY)]).
Proof.
  intros Hdown Hup p w' p'. subst p' w' p.
  destruct (up_from_down _ _ Hdown Hup) as [Hx _].
  rewrite (handle_linkup_change_up_world _ _ Hx Hup).
  unfold linkup_world, linkup_calls, linkup_dd, negotiated_port. cbn zeta.
  set (m := lni_mgmt_allowed w). set (sim := simulated w). clearbody m sim.
  unfold lni_port.
  destruct w as [[fl ic va vc vl ib evs ppd] ql cs lni calls]. destruct ppd.
  setters. rewrite !cfg_writes_app, !warnings_app.
  destruct sim, (m =? 0) eqn:Hm; cbn; rewrite ?Hm; cbn;
    try (destruct (_ || _); cbn); rewrite ?app_nil_r; repeat split; reflexivity.
Qed.


(** X5.  The credit unit, the virtual-lane-15 credits and the remote
    credit-mapping table are programmed, in that order and from this device's
    own [vau], [vl15_init] and [vcu], exactly when a notification takes the up
    path on a quick link-up or on the functional simulator; no other
    notification programs them. *)
Theorem handle_linkup_change_credit_setup (w : world) (up : Z) :
  let dd := w_dd w in
  credit_setup (w_calls (exec (handle_linkup_change up) w)) =
    credit_setup (w_calls w) ++
    (if negb (linkup (pport dd) =? to_bool up) && negb (up =? 0) && simulated w
     then [call_set_up_vau (vau dd); call_set_up_vl15 (vl15_init dd);
           call_assign_remote_cm_au_table (vcu dd)]
     else []).
Proof.
  cbn zeta.
  destruct (handle_linkup_change_cases w up)
    as [[Hsame ->] | [(Hne & Hup & ->) | [Hl ->]]].
  - rewrite (proj2 (Z.eqb_eq _ _) Hsame). cbn. symmetry. apply app_nil_r.
  - rewrite (proj2 (Z.eqb_neq _ _) Hne), (proj2 (Z.eqb_neq _ _) Hup). cbn.
    unfold linkup_world, linkup_calls. cbn [w_calls].
    rewrite credit_setup_app. f_equal.
    destruct (simulated w), (lni_mgmt_allowed w =? 0); cbn; try reflexivity;
      destruct (_ || _); reflexivity.
  - rewrite (handle_linkup_change_down_calls w Hl), credit_setup_app.
    rewrite andb_false_r. cbn. destruct (registered (w_dd w)); reflexivity.
Qed.

(** X6.  A down-transition rewrites three fields of the port, the link-up
    flag, the operational-lane count and the neighbor-normal flag, and no other
    one: the partition keys, the management-allowed attribute, the neighbor's
    identity, the port number and the offline-disabled reason stay as they
    were, and the down path does not call [hfi1_set_ib_cfg]. *)
Theorem linkdown_frame (w : world) :
  linkup (pport (w_dd w)) <> 0 ->
  let p := pport (w_dd w) in
  let w' := exec (handle_linkup_change 0) w in
  pport (w_dd w') =
    with_neighbor_normal 0 (with_actual_vls_operational 0 (with_linkup 0 p)) /\
  pkeys (pport (w_dd w')) = pkeys p /\
  mgmt_allowed (pport (w_dd w')) = mgmt_allowed p /\
  cfg_writes (w_calls w') = cfg_writes (w_calls w).
Proof.
  intros Hl p w'. subst w' p.
  destruct (handle_linkup_change_down_world w Hl) as (Hdd & _).
  rewrite Hdd, (handle_linkup_change_down_calls w Hl). unfold linkdown_dd.
  repeat (split; [reflexivity |]).
  rewrite cfg_writes_app. destruct (registered (w_dd w)); cbn; apply app_nil_r.
Qed.




(** X8.  The value [set_mgmt_allowed] stores is never negative and never above
    the larger of 1 and [MGMT_ALLOWED_MASK], whatever the frame holds: with the
    one-bit mask of the driver it is 0 or 1. *)
Theorem set_mgmt_allowed_range (w : world) :
  0 <= MGMT_ALLOWED_MASK ->
  0 <= mgmt_allowed (pport (w_dd (exec set_mgmt_allowed w)))
    <= Z.max 1 MGMT_ALLOWED_MASK.
Proof.
  intros Hmask. unfold set_mgmt_allowed. run.
  destruct (neighbor_type (pport (w_dd w)) =? NEIGHBOR_TYPE_HFI); cbn; [lia |].
  pose proof (land_le_r (Z.shiftr (lni_config w REMOTE_LNI_INFO GENERAL_CONFIG)
                                  MGMT_ALLOWED_SHIFT) _ Hmask). lia.
Qed.

(** X9.  [add_full_mgmt_pkey] keeps the length of the partition-key table, and
    run a second time it finds the key in place: it warns no more, rewrites
    nothing, and only pushes the table and notifies the change again. *)
Theorem add_full_mgmt_pkey_twice (w : world) :
  (2 < length (pkeys (pport (w_dd w))))%nat ->
  let w1 := exec add_full_mgmt_pkey w in
  let w2 := exec add_full_mgmt_pkey w1 in
  length (pkeys (pport (w_dd w1))) = length (pkeys (pport (w_dd w))) /\
  w_dd w2 = w_dd w1 /\
  w_calls w2 =
    w_calls w1 ++
    [call_hfi1_set_ib_cfg (w_dd w1) HFI1_IB_CFG_PKEYS 0;
     call_hfi1_event_pkey_change (w_dd w1) (port (pport (w_dd w)))].
Proof.
  intros Hlen w1 w2. subst w2 w1.
  destruct w as [[fl ic va vc vl ib evs ppd] ql cs lni calls]. destruct ppd.
  cbn in Hlen. unfold add_full_mgmt_pkey. run. case_if; setters.
  all: rewrite (list_lookup_insert_eq _ _ _ Hlen); cbn.
  all: rewrite Z.eqb_refl, orb_true_r; cbn.
  all: rewrite list_insert_insert_eq, length_insert.
  all: rewrite <- ?app_assoc; repeat split; reflexivity.
Qed.

(** C3, amended.  Whatever slot 2 of the partition-key table holds, zero,
    the full-management key or a stray value, [add_full_mgmt_pkey] leaves the
    full-management key there: it changes no other slot and nothing else of
    the device, logs one warning exactly when the value it found was neither
    zero nor the key, then pushes the table and notifies the change, and
    returns nothing.  A link notification rewrites the slot only through that
    call, that is on an up-transition that finds management allowed; every
    other notification leaves in the slot what it found, a stray value
    included.  So a slot that is unset or holds the key stays so over any run
    of notifications. *)
Theorem full_mgmt_pkey_slot (w : world) (old : Z) :
  pkeys (pport (w_dd w)) !! 2%nat = Some old ->
  let p := pport (w_dd w) in
  let w' := exec add_full_mgmt_pkey w in
  (pkeys (pport (w_dd w')) !! 2%nat = Some FULL_MGMT_P_KEY /\
   (forall i : nat, i <> 2%nat -> pkeys (pport (w_dd w')) !! i = pkeys p !! i) /\
   w_dd w' =
     with_pport (with_pkeys (<[2%nat := FULL_MGMT_P_KEY]> (pkeys p))) (w_dd w) /\
   w_calls w' =
     w_calls w ++
     (if (old =? 0) || (old =? FULL_MGMT_P_KEY) then []
      else [call_dd_dev_warn old FULL_MGMT_P_KEY]) ++
     [call_hfi1_set_ib_cfg (w_dd w') HFI1_IB_CFG_PKEYS 0;
      call_hfi1_event_pkey_change (w_dd w') (port p)]) /\
  (forall up : Z,
     pkeys (pport (w_dd (exec (handle_linkup_change up) w))) !! 2%nat =
     Some (if negb (linkup p =? to_bool up) && negb (up =? 0)
              && negb (lni_mgmt_allowed w =? 0)
           then FULL_MGMT_P_KEY else old)) /\
  (forall ups : list Z,
     pkey2_ok p ->
     pkey2_ok (pport (w_dd (exec (handle_linkup_changes ups) w)))).
Proof.
  intros Hold p w'. subst w' p.
  assert (Hlen : (2 < length (pkeys (pport (w_dd w))))%nat)
    by (apply lookup_lt_Some in Hold; exact Hold).
  assert (Hpk : pkey2 (pport (w_dd w)) = old)
    by (unfold pkey2; rewrite Hold; reflexivity).
  split; [| split].
  - destruct (add_full_mgmt_pkey_spec w Hlen) as (H2 & _ & Hrest & Hdd & Hcalls).
    rewrite Hpk in Hcalls. repeat split; assumption.
  - intros up.
    destruct (handle_linkup_change_cases w up)
      as [[Hsame ->] | [(Hne & Hup & ->) | [Hl ->]]].
    + rewrite (proj2 (Z.eqb_eq _ _) Hsame). exact Hold.
    + rewrite (proj2 (Z.eqb_neq _ _) Hne), (proj2 (Z.eqb_neq _ _) Hup).
      unfold linkup_world, linkup_dd, negotiated_port, lni_port.
      destruct (lni_mgmt_allowed w =? 0); cbn; [exact Hold |].
      apply list_lookup_insert_eq. exact Hlen.
    + destruct (handle_linkup_change_down_world w Hl) as (Hdd & _).
      rewrite Hdd, andb_false_r. exact Hold.
  - intros ups Hok. apply handle_linkup_changes_pkey2_ok. exact Hok.
Qed.

End ControllerMore.

(** ** More on the event notifier and the interrupt dispatcher *)

Section NotifierMore.
Context {K : hfi_h}.

(** X15.  On a registered device a run of [signal_ib_event] calls hands the
    event consumer one event for each call, in the order of the calls, each
    naming this device and port, and leaves the device as it was. *)
Theorem signal_ib_events_in_order (evs : list Z) (w : world) :
  registered (w_dd w) = true ->
  w_dd (exec (signal_ib_events evs) w) = w_dd w /\
  forwarded (w_calls (exec (signal_ib_events evs) w)) =
    forwarded (w_calls w) ++
    map (mk_ib_event (ibdev (w_dd w)) (port (pport (w_dd w)))) evs.
Proof.
  revert w. induction evs as [| ev rest IH]; intros w Hr.
  - cbn. rewrite app_nil_r. split; reflexivity.
  - cbn [signal_ib_events map]. unfold exec, mbind, M_bind.
    rewrite (signal_ib_event_registered w ev Hr).
    destruct (IH (with_call (call_ib_dispatch_event
                    (mk_ib_event (ibdev (w_dd w)) (port (pport (w_dd w))) ev)) w) Hr)
      as [Hdd Hfw].
    unfold exec in Hdd, Hfw. rewrite Hdd, Hfw. cbn [w_dd with_call w_calls].
    rewrite forwarded_app, <- app_assoc. split; reflexivity.
Qed.

End NotifierMore.

(** Compute the field updates and reads of the context, innermost first. *)
Ltac usetters :=
  cbv beta iota zeta delta
    [with_rcd with_ucall with_event_flags with_urgent with_wait
     u_rcd rcvavail_intr_enabled u_calls
     in_use_ctxts event_flags urgent wait] in *.

Section DispatcherMore.
Context {K : hfi_h}.

(** The four ways an interrupt can go, each with the world it leaves. *)
Lemma handle_user_interrupt_cases (u : uworld) :
  let rcd := u_rcd u in
  let fl := event_flags rcd in
  let locked := with_ucall call_spin_lock_irqsave u in
  exec handle_user_interrupt u =
  with_ucall call_spin_unlock_irqrestore
    (if bitmap_empty (in_use_ctxts rcd) HFI1_MAX_SHARED_CTXTS then locked
     else if Z.testbit fl HFI1_CTXT_WAITING_RCV then
       exec (hfi1_rcvctrl HFI1_RCVCTRL_INTRAVAIL_DIS)
         (exec wake_up_interruptible
            (with_rcd (with_event_flags (Z.clearbit fl HFI1_CTXT_WAITING_RCV))
                      locked))
     else if Z.testbit fl HFI1_CTXT_WAITING_URG then
       exec wake_up_interruptible
         (with_rcd (fun r => with_urgent (u32 (urgent r + 1))
                      (with_event_flags (Z.clearbit fl HFI1_CTXT_WAITING_URG) r))
                   locked)
     else locked).
Proof.
  destruct u as [[bm fl ur q] en calls].
  unfold handle_user_interrupt. run.
  destruct (bitmap_empty bm HFI1_MAX_SHARED_CTXTS); cbn; [reflexivity |].
  destruct (Z.testbit fl HFI1_CTXT_WAITING_RCV) eqn:Hr; cbn.
  - rewrite Z.eqb_refl. reflexivity.
  - usetters. rewrite (clearbit_of_clear _ _ Hr).
    destruct (Z.testbit fl HFI1_CTXT_WAITING_URG) eqn:Hu; cbn; [reflexivity |].
    rewrite (clearbit_of_clear _ _ Hu). reflexivity.
Qed.

(** X10.  On every path, the early exit included, [handle_user_interrupt]
    takes the shared-context lock first and releases it last, once each:
    whatever it does in between is neither, and is at most one wake-up. *)
Theorem handle_user_interrupt_lock (u : uworld) :
  exists mid : list ucall,
    u_calls (exec handle_user_interrupt u) =
      u_calls u ++ [call_spin_lock_irqsave] ++ mid ++ [call_spin_unlock_irqrestore] /\
    forallb (fun c => negb (is_lock_call c)) mid = true /\
    (length (wakes mid) <= 1)%nat.
Proof.
  rewrite handle_user_interrupt_cases. cbn zeta.
  destruct u as [[bm fl ur q] en calls]. run.
  destruct (bitmap_empty bm HFI1_MAX_SHARED_CTXTS); cbn;
    [exists []; rewrite <- ?app_assoc; repeat split; cbn; lia |].
  destruct (Z.testbit fl HFI1_CTXT_WAITING_RCV); cbn.
  - rewrite Z.eqb_refl. cbn. eexists [_; _]. rewrite <- !app_assoc.
    repeat split; cbn; lia.
  - destruct (Z.testbit fl HFI1_CTXT_WAITING_URG); cbn.
    + eexists [_]. rewrite <- !app_assoc. repeat split; cbn; lia.
    + exists []. rewrite <- ?app_assoc. repeat split; cbn; lia.
Qed.

(** X11.  [handle_user_interrupt] never sets an event flag, and the only
    flags it can clear are the two waiting flags: every other bit of the flag
    word keeps its value. *)
Theorem handle_user_interrupt_flags (u : uworld) (n : Z) :
  let fl := event_flags (u_rcd u) in
  let fl' := event_flags (u_rcd (exec handle_user_interrupt u)) in
  (Z.testbit fl' n = true -> Z.testbit fl n = true) /\
  (n <> HFI1_CTXT_WAITING_RCV -> n <> HFI1_CTXT_WAITING_URG ->
   Z.testbit fl' n = Z.testbit fl n).
Proof.
  rewrite handle_user_interrupt_cases. cbn zeta.
  destruct u as [[bm fl ur q] en calls]. run.
  destruct (bitmap_empty bm HFI1_MAX_SHARED_CTXTS); cbn; [split; auto |].
  destruct (Z.testbit fl HFI1_CTXT_WAITING_RCV); cbn.
  - rewrite Z.eqb_refl. cbn. rewrite Z.clearbit_eqb. split.
    + intros H. apply andb_true_iff in H. apply H.
    + intros Hr _. apply Z.eqb_neq in Hr. rewrite Z.eqb_sym, Hr. apply andb_true_r.
  - destruct (Z.testbit fl HFI1_CTXT_WAITING_URG); cbn; [| split; auto].
    rewrite Z.clearbit_eqb. split.
    + intros H. apply andb_true_iff in H. apply H.
    + intros _ Hu. apply Z.eqb_neq in Hu. rewrite Z.eqb_sym, Hu. apply andb_true_r.
Qed.

(** X13.  The urgent counter moves only on the urgent path, that is with a
    sub-context in use, the receive flag clear and the urgent flag set; there
    it becomes the next [u32], and a counter that was a [u32] stays one. *)
Theorem handle_user_interrupt_urgent (u : uworld) :
  let rcd := u_rcd u in
  let ur' := urgent (u_rcd (exec handle_user_interrupt u)) in
  ur' =
    (if negb (bitmap_empty (in_use_ctxts rcd) HFI1_MAX_SHARED_CTXTS)
        && negb (Z.testbit (event_flags rcd) HFI1_CTXT_WAITING_RCV)
        && Z.testbit (event_flags rcd) HFI1_CTXT_WAITING_URG
     then u32 (urgent rcd + 1) else urgent rcd) /\
  (0 <= urgent rcd < 2 ^ 32 -> 0 <= ur' < 2 ^ 32).
Proof.
  rewrite handle_user_interrupt_cases. cbn zeta.
  destruct u as [[bm fl ur q] en calls]. run.
  destruct (bitmap_empty bm HFI1_MAX_SHARED_CTXTS); cbn; [split; auto |].
  destruct (Z.testbit fl HFI1_CTXT_WAITING_RCV); cbn.
  - rewrite Z.eqb_refl. cbn. split; auto.
  - destruct (Z.testbit fl HFI1_CTXT_WAITING_URG); cbn; [| split; auto].
    split; [reflexivity |]. intros _. unfold u32. apply Z.mod_pos_bound. lia.
Qed.

(** X14.  [handle_user_interrupt] never enables the receive-available
    interrupt: it disables it exactly on the receive path (a sub-context in
    use and the receive flag set) and leaves it as it was on every other
    path. *)
Theorem handle_user_interrupt_rcvavail (u : uworld) :
  let rcd := u_rcd u in
  rcvavail_intr_enabled (exec handle_user_interrupt u) =
    rcvavail_intr_enabled u
    && negb (negb (bitmap_empty (in_use_ctxts rcd) HFI1_MAX_SHARED_CTXTS)
             && Z.testbit (event_flags rcd) HFI1_CTXT_WAITING_RCV).
Proof.
  rewrite handle_user_interrupt_cases. cbn zeta.
  destruct u as [[bm fl ur q] en calls]. run.
  destruct (bitmap_empty bm HFI1_MAX_SHARED_CTXTS); cbn;
    [symmetry; apply andb_true_r |].
  destruct (Z.testbit fl HFI1_CTXT_WAITING_RCV); cbn.
  - rewrite Z.eqb_refl. cbn. symmetry. apply andb_false_r.
  - destruct (Z.testbit fl HFI1_CTXT_WAITING_URG); cbn; symmetry; apply andb_true_r.
Qed.

(** With a sub-context in use one interrupt leaves the receive flag clear,
    leaves the urgent flag clear if either flag was clear, and wakes at most
    once. *)
Lemma handle_user_interrupt_serves (u : uworld) :
  bitmap_empty (in_use_ctxts (u_rcd u)) HFI1_MAX_SHARED_CTXTS = false ->
  let fl := event_flags (u_rcd u) in
  let u' := exec handle_user_interrupt u in
  in_use_ctxts (u_rcd u') = in_use_ctxts (u_rcd u) /\
  Z.testbit (event_flags (u_rcd u')) HFI1_CTXT_WAITING_RCV = false /\
  (Z.testbit fl HFI1_CTXT_WAITING_RCV = false ->
   Z.testbit (event_flags (u_rcd u')) HFI1_CTXT_WAITING_URG = false) /\
  (length (wakes (u_calls u')) <= length (wakes (u_calls u)) + 1)%nat.
Proof.
  intros Hused. cbn zeta. rewrite handle_user_interrupt_cases. cbn zeta.
  rewrite Hused. destruct u as [[bm fl ur q] en calls]. run.
  destruct (Z.testbit fl HFI1_CTXT_WAITING_RCV) eqn:Hr; cbn.
  - rewrite Z.eqb_refl. usetters.
    rewrite Z.clearbit_eq, !wakes_app, !length_app. cbn.
    repeat split; [discriminate | unfold wakes; lia].
  - destruct (Z.testbit fl HFI1_CTXT_WAITING_URG) eqn:Hu; usetters.
    + rewrite Z.clearbit_eqb, Hr, Z.clearbit_eq, !wakes_app, !length_app. cbn.
      repeat split; unfold wakes; lia.
    + rewrite Hr, Hu, !wakes_app, !length_app. cbn.
      repeat split; unfold wakes; lia.
Qed.

(** With both waiting flags clear an interrupt wakes nobody and leaves the
    context and the interrupt enable as they are. *)
Lemma handle_user_interrupt_nothing_waiting (u : uworld) :
  Z.testbit (event_flags (u_rcd u)) HFI1_CTXT_WAITING_RCV = false ->
  Z.testbit (event_flags (u_rcd u)) HFI1_CTXT_WAITING_URG = false ->
  u_rcd (exec handle_user_interrupt u) = u_rcd u /\
  rcvavail_intr_enabled (exec handle_user_interrupt u) = rcvavail_intr_enabled u /\
  wakes (u_calls (exec handle_user_interrupt u)) = wakes (u_calls u).
Proof.
  intros Hr Hu. rewrite handle_user_interrupt_cases. cbn zeta. rewrite Hr, Hu.
  destruct u as [[bm fl ur q] en calls].
  destruct (bitmap_empty _ _); usetters; rewrite !wakes_app; cbn;
    rewrite !app_nil_r; repeat split.
Qed.

(** X12.  Two interrupts in a row on a context in use drain both waiting
    flags, the first serving the receive flag if it was set and the next one
    the urgent flag; they wake the waiters at most twice, and a third
    interrupt then finds nothing to do: it wakes nobody and leaves the context
    and the interrupt enable as they are. *)
Theorem handle_user_interrupt_drains (u : uworld) :
  bitmap_empty (in_use_ctxts (u_rcd u)) HFI1_MAX_SHARED_CTXTS = false ->
  let u2 := exec handle_user_interrupt (exec handle_user_interrupt u) in
  let u3 := exec handle_user_interrupt u2 in
  Z.testbit (event_flags (u_rcd u2)) HFI1_CTXT_WAITING_RCV = false /\
  Z.testbit (event_flags (u_rcd u2)) HFI1_CTXT_WAITING_URG = false /\
  (length (wakes (u_calls u2)) <= length (wakes (u_calls u)) + 2)%nat /\
  u_rcd u3 = u_rcd u2 /\
  rcvavail_intr_enabled u3 = rcvavail_intr_enabled u2 /\
  wakes (u_calls u3) = wakes (u_calls u2).
Proof.
  intros Hused u2 u3. subst u3 u2.
  destruct (handle_user_interrupt_serves u Hused) as (Hbm & Hr1 & _ & Hw1).
  assert (Hused1 : bitmap_empty
            (in_use_ctxts (u_rcd (exec handle_user_interrupt u)))
            HFI1_MAX_SHARED_CTXTS = false) by (rewrite Hbm; exact Hused).
  destruct (handle_user_interrupt_serves _ Hused1) as (_ & Hr2 & Hu2 & Hw2).
  specialize (Hu2 Hr1).
  split; [exact Hr2 |]. split; [exact Hu2 |]. split; [lia |].
  apply handle_user_interrupt_nothing_waiting; assumption.
Qed.

End DispatcherMore.

(** ** The code on concrete devices *)

#[local] Existing Instance linux_hfi_h.

(** C1 on a registered device: the port goes down and one port-error event
    for port 1 of device 7 is dispatched. *)
Lemma handle_linkup_change_down_registered :
  linkup (pport (w_dd (world1 (dev1 1 (port1 1 0)) 1 0))) <> 0 /\
  0 <= _HFI1_EVENT_LINKDOWN_BIT /\
  linkup (pport (w_dd (exec (handle_linkup_change 0)
                            (world1 (dev1 1 (port1 1 0)) 1 0)))) = 0.
Proof.
  split; [vm_compute; discriminate |]. split; [vm_compute; discriminate |].
  apply (handle_linkup_change_down (world1 (dev1 1 (port1 1 0)) 1 0));
    vm_compute; discriminate.
Defined.

(** C1 as stated fails on a device that has not registered: the port is up,
    the link goes down, and no event at all is handed to the event consumer. *)
Lemma handle_linkup_change_down_unregistered :
  linkup (pport (w_dd (world1 (dev1 0 (port1 1 0)) 1 0))) <> 0 /\
  ~ (exists e : ib_event,
       forwarded (w_calls (exec (handle_linkup_change 0)
                                (world1 (dev1 0 (port1 1 0)) 1 0))) =
       forwarded (w_calls (world1 (dev1 0 (port1 1 0)) 1 0)) ++ [e]).
Proof.
  split; [vm_compute; discriminate |].
  intros [e He]. vm_compute in He. discriminate He.
Qed.

(** C2 on a port that is up and is told so again. *)
Lemma handle_linkup_change_redundant_up :
  linkup (pport (w_dd (world1 (dev1 1 (port1 1 0)) 1 0))) = to_bool 1 /\
  exec (handle_linkup_change 1) (world1 (dev1 1 (port1 1 0)) 1 0) =
    world1 (dev1 1 (port1 1 0)) 1 0 /\
  forwarded (w_calls (exec (handle_linkup_change 1)
                           (world1 (dev1 1 (port1 1 0)) 1 0))) =
    forwarded (w_calls (world1 (dev1 1 (port1 1 0)) 1 0)).
Proof.
  split; [reflexivity |].
  apply (handle_linkup_change_redundant (world1 (dev1 1 (port1 1 0)) 1 0) 1).
  reflexivity.
Defined.

(** C3 on a table whose slot 2 holds the stray value 4660: the key
    replaces it and the warning names both. *)
Lemma full_mgmt_pkey_slot_4660 :
  pkeys (pport (w_dd (world1 (dev1 1 (port1 0 4660)) 1 0))) !! 2%nat = Some 4660 /\
  pkeys (pport (w_dd (exec add_full_mgmt_pkey
                           (world1 (dev1 1 (port1 0 4660)) 1 0)))) !! 2%nat =
    Some FULL_MGMT_P_KEY /\
  warnings (w_calls (exec add_full_mgmt_pkey
                          (world1 (dev1 1 (port1 0 4660)) 1 0))) =
    [(4660, FULL_MGMT_P_KEY)].
Proof.
  assert (H0 : pkeys (pport (w_dd (world1 (dev1 1 (port1 0 4660)) 1 0))) !! 2%nat
               = Some 4660) by reflexivity.
  split; [exact H0 |].
  destruct (full_mgmt_pkey_slot (world1 (dev1 1 (port1 0 4660)) 1 0) 4660 H0)
    as ((Hkey & _ & _ & Hcalls) & _).
  split; [exact Hkey |]. rewrite Hcalls. reflexivity.
Defined.

(** C3 as stated fails for the operations that do not reach
    [add_full_mgmt_pkey]: with the stray value 4660 in slot 2, a
    down-transition and an up-transition whose partner denies management both
    leave 4660 there, which is neither unset nor the full-management key. *)
Lemma stray_pkey_survives_transitions :
  pkeys (pport (w_dd (exec (handle_linkup_change 0)
                           (world1 (dev1 1 (port1 1 4660)) 1 0)))) !! 2%nat =
    Some 4660 /\
  pkeys (pport (w_dd (exec (handle_linkup_change 1)
                           (world1 (dev1 1 (port1 0 4660)) 1 0)))) !! 2%nat =
    Some 4660 /\
  ~ pkey2_ok (pport (w_dd (exec (handle_linkup_change 0)
                                (world1 (dev1 1 (port1 1 4660)) 1 0)))) /\
  ~ pkey2_ok (pport (w_dd (exec (handle_linkup_change 1)
                                (world1 (dev1 1 (port1 0 4660)) 1 0)))).
Proof.
  split; [vm_compute; reflexivity |]. split; [vm_compute; reflexivity |].
  split; intros [H | H]; vm_compute in H; discriminate H.
Qed.

(** C4 on a switch partner that grants management (bit 23 of the frame). *)
Lemma pkey_update_precedes_linkup_switch :
  linkup (pport (w_dd (world1 (dev1 1 (port1 0 0)) 1 8388608))) = 0 /\
  1 <> 0 /\
  mgmt_allowed (pport (w_dd (exec (handle_linkup_change 1)
                                  (world1 (dev1 1 (port1 0 0)) 1 8388608)))) <> 0 /\
  exists (pre : list call) (seen : hfi1_devdata),
    w_calls (exec (handle_linkup_change 1)
                  (world1 (dev1 1 (port1 0 0)) 1 8388608)) =
      w_calls (world1 (dev1 1 (port1 0 0)) 1 8388608) ++ pre ++
      [call_hfi1_set_ib_cfg seen HFI1_IB_CFG_PKEYS 0;
       call_hfi1_event_pkey_change seen
         (port (pport (w_dd (world1 (dev1 1 (port1 0 0)) 1 8388608))));
       call_get_linkup_link_widths
         (w_dd (exec (handle_linkup_change 1)
                     (world1 (dev1 1 (port1 0 0)) 1 8388608)))] /\
    Forall (fun c => seen_linkup c = None) pre /\
    linkup (pport seen) = 0 /\
    pkeys (pport seen) =
      <[2%nat := FULL_MGMT_P_KEY]>
        (pkeys (pport (w_dd (world1 (dev1 1 (port1 0 0)) 1 8388608)))) /\
    linkup (pport (w_dd (exec (handle_linkup_change 1)
                              (world1 (dev1 1 (port1 0 0)) 1 8388608)))) = 1.
Proof.
  split; [reflexivity |]. split; [discriminate |].
  split; [vm_compute; discriminate |].
  apply (pkey_update_precedes_linkup (world1 (dev1 1 (port1 0 0)) 1 8388608) 1).
  - reflexivity.
  - discriminate.
  - vm_compute; discriminate.
Defined.

(** C5 on a context in use with both flags set (bits 3 and 4 of 24). *)
Lemma handle_user_interrupt_dispatch_both :
  (exists i, 0 <= i < HFI1_MAX_SHARED_CTXTS /\
             Z.testbit (in_use_ctxts (u_rcd (uworld1 1 24))) i = true) /\
  HFI1_CTXT_WAITING_RCV <> HFI1_CTXT_WAITING_URG /\
  Z.testbit (event_flags (u_rcd (exec handle_user_interrupt (uworld1 1 24))))
            HFI1_CTXT_WAITING_URG = true.
Proof.
  assert (Hused : exists i, 0 <= i < HFI1_MAX_SHARED_CTXTS /\
             Z.testbit (in_use_ctxts (u_rcd (uworld1 1 24))) i = true).
  { exists 0. vm_compute. repeat split; discriminate. }
  assert (Hne : HFI1_CTXT_WAITING_RCV <> HFI1_CTXT_WAITING_URG)
    by (vm_compute; discriminate).
  split; [exact Hused |]. split; [exact Hne |].
  destruct (handle_user_interrupt_dispatch (uworld1 1 24) Hused Hne)
    as [Hrcv _].
  destruct (Hrcv eq_refl) as (_ & _ & Hurg & _). exact Hurg.
Defined.

(** C7 on a context nobody uses, both flags set. *)
Lemma handle_user_interrupt_idle_unused :
  0 <= HFI1_MAX_SHARED_CTXTS /\
  (forall i, 0 <= i < HFI1_MAX_SHARED_CTXTS ->
             Z.testbit (in_use_ctxts (u_rcd (uworld1 0 24))) i = false) /\
  u_rcd (exec handle_user_interrupt (uworld1 0 24)) = u_rcd (uworld1 0 24).
Proof.
  assert (Hempty : forall i, 0 <= i < HFI1_MAX_SHARED_CTXTS ->
             Z.testbit (in_use_ctxts (u_rcd (uworld1 0 24))) i = false)
    by (intros i _; apply Z.bits_0).
  split; [vm_compute; discriminate |]. split; [exact Hempty |].
  apply (handle_user_interrupt_idle (uworld1 0 24)); [vm_compute; discriminate |].
  exact Hempty.
Defined.

(** C9 on a partner that denies management: nothing is told upstream. *)
Lemma handle_linkup_change_up_quiet :
  linkup (pport (w_dd (world1 (dev1 1 (port1 0 0)) 1 0))) = 0 /\
  1 <> 0 /\
  forwarded (w_calls (exec (handle_linkup_change 1)
                           (world1 (dev1 1 (port1 0 0)) 1 0))) =
    forwarded (w_calls (world1 (dev1 1 (port1 0 0)) 1 0)).
Proof.
  split; [reflexivity |]. split; [discriminate |].
  apply (handle_linkup_change_up_notifications
           (world1 (dev1 1 (port1 0 0)) 1 0) 1); [reflexivity | discriminate].
Defined.

(** C9 as stated fails when the up-transition finds management allowed: with
    an adapter as neighbor (node type 0) the port was down, comes up, and
    listeners are told that the partition keys of port 1 of device 7
    changed. *)
Lemma handle_linkup_change_up_tells_pkey_change :
  linkup (pport (w_dd (world1 (dev1 1 (port1 0 0)) 0 0))) = 0 /\
  1 <> 0 /\
  notifications (w_calls (world1 (dev1 1 (port1 0 0)) 0 0)) = [] /\
  notifications (w_calls (exec (handle_linkup_change 1)
                               (world1 (dev1 1 (port1 0 0)) 0 0))) =
    [pkey_change 7 1].
Proof.
  split; [reflexivity |]. split; [discriminate |]. split; vm_compute; reflexivity.
Qed.


(** X4 on a switch that grants management, slot 2 holding 4660. *)
Lemma linkup_installs_pkey_switch :
  linkup (pport (w_dd (world1 (dev1 1 (port1 0 4660)) 1 8388608))) = 0 /\
  1 <> 0 /\
  warnings (w_calls (exec (handle_linkup_change 1)
                          (world1 (dev1 1 (port1 0 4660)) 1 8388608))) =
    [(4660, 65535)].
Proof.
  assert (H0 : linkup (pport (w_dd (world1 (dev1 1 (port1 0 4660)) 1 8388608))) = 0)
    by reflexivity.
  assert (H1 : 1 <> 0) by discriminate.
  split; [exact H0 |]. split; [exact H1 |].
  destruct (linkup_installs_pkey (world1 (dev1 1 (port1 0 4660)) 1 8388608) 1 H0 H1)
    as (_ & _ & Hwarn).
  exact Hwarn.
Defined.

(** X6 on a port that is up and holds the full-management key. *)
Lemma linkdown_frame_keeps_pkey :
  linkup (pport (w_dd (world1 (dev1 1 (port1 1 65535)) 1 0))) <> 0 /\
  pkeys (pport (w_dd (exec (handle_linkup_change 0)
                           (world1 (dev1 1 (port1 1 65535)) 1 0)))) =
    pkeys (pport (w_dd (world1 (dev1 1 (port1 1 65535)) 1 0))).
Proof.
  assert (H0 : linkup (pport (w_dd (world1 (dev1 1 (port1 1 65535)) 1 0))) <> 0)
    by (vm_compute; discriminate).
  split; [exact H0 |].
  destruct (linkdown_frame (world1 (dev1 1 (port1 1 65535)) 1 0) H0)
    as (_ & Hkeys & _).
  exact Hkeys.
Defined.

(** X8 with the one-bit mask, on a frame with every bit set. *)
Lemma set_mgmt_allowed_range_one_bit :
  0 <= MGMT_ALLOWED_MASK /\
  0 <= mgmt_allowed (pport (w_dd (exec set_mgmt_allowed
                                       (world1 (dev1 1 (port1 0 0)) 1 4294967295))))
    <= Z.max 1 MGMT_ALLOWED_MASK.
Proof.
  assert (H0 : 0 <= MGMT_ALLOWED_MASK) by (vm_compute; discriminate).
  split; [exact H0 |].
  exact (set_mgmt_allowed_range (world1 (dev1 1 (port1 0 0)) 1 4294967295) H0).
Defined.

(** X9 on a table whose slot 2 holds the stray value 4660. *)
Lemma add_full_mgmt_pkey_twice_4660 :
  (2 < length (pkeys (pport (w_dd (world1 (dev1 1 (port1 0 4660)) 1 0)))))%nat /\
  w_dd (exec add_full_mgmt_pkey
          (exec add_full_mgmt_pkey (world1 (dev1 1 (port1 0 4660)) 1 0))) =
    w_dd (exec add_full_mgmt_pkey (world1 (dev1 1 (port1 0 4660)) 1 0)).
Proof.
  assert (H0 : (2 < length (pkeys (pport (w_dd (world1 (dev1 1 (port1 0 4660)) 1 0)))))%nat)
    by (vm_compute; lia).
  split; [exact H0 |].
  destruct (add_full_mgmt_pkey_twice (world1 (dev1 1 (port1 0 4660)) 1 0) H0)
    as (_ & Hdd & _).
  exact Hdd.
Defined.

(** X12 on a context in use with both flags set. *)
Lemma handle_user_interrupt_drains_both :
  bitmap_empty (in_use_ctxts (u_rcd (uworld1 1 24))) HFI1_MAX_SHARED_CTXTS = false /\
  Z.testbit (event_flags (u_rcd (exec handle_user_interrupt
                                   (exec handle_user_interrupt (uworld1 1 24)))))
            HFI1_CTXT_WAITING_URG = false.
Proof.
  assert (H0 : bitmap_empty (in_use_ctxts (u_rcd (uworld1 1 24)))
                            HFI1_MAX_SHARED_CTXTS = false) by reflexivity.
  split; [exact H0 |].
  destruct (handle_user_interrupt_drains (uworld1 1 24) H0) as (_ & Hurg & _).
  exact Hurg.
Defined.

(** X15 on a registered device told of a port error, then of an active
    port. *)
Lemma signal_ib_events_in_order_two :
  registered (w_dd (world1 (dev1 1 (port1 1 0)) 1 0)) = true /\
  forwarded (w_calls (exec (signal_ib_events [10; 9])
                           (world1 (dev1 1 (port1 1 0)) 1 0))) =
    forwarded (w_calls (world1 (dev1 1 (port1 1 0)) 1 0)) ++
    map (mk_ib_event (ibdev (w_dd (world1 (dev1 1 (port1 1 0)) 1 0)))
                     (port (pport (w_dd (world1 (dev1 1 (port1 1 0)) 1 0)))))
        [10; 9].
Proof.
  assert (H0 : registered (w_dd (world1 (dev1 1 (port1 1 0)) 1 0)) = true)
    by reflexivity.
  split; [exact H0 |].
  destruct (signal_ib_events_in_order [10; 9] (world1 (dev1 1 (port1 1 0)) 1 0) H0)
    as (_ & Hfw).
  exact Hfw.
Defined.
